(** * The KYC fraud-scoring pipeline of [backend/main.py] and [backend/predict.py]

    A shallow embedding of the prediction core of the repository and the
    properties of its specification.

    Conventions of the embedding.
    - A Python [float] is a binary64 number: Rocq's primitive [float], whose
      comparisons and arithmetic are the IEEE 754 ones Python uses (NaN
      included).  Decimal literals denote the nearest binary64, as in Python.
    - A Python [str] is a [string] whose characters are the code points
      below 256 (Latin-1), each [ascii] standing for the code point of its
      number; the character classes ([str.isdigit], [str.isupper], the
      whitespace of [str.split]) are Python's on these code points.
      Strings with other characters are outside the model.
    - A call that may raise returns a [result]; [try ... except Exception]
      is [try_except].  Calls to [logger] do not change any returned value
      and are left out.
    - The fitted artifacts (selector, scaler, classifier) are opaque
      capabilities: arbitrary functions that return an array or raise.
      Module [Main] takes them as the truth tests [if feature_selector:],
      [if scaler:], [if model:] leave them; module [Loaded] has the loaded
      objects with these tests, which are outside every [try] and can
      raise.
    - The CSV files are explicit state: the fallback table is a list of rows,
      the audit log a file that may be missing and a disk that may refuse the
      write. *)

From Stdlib Require Import Floats ZArith String Ascii List Lia.
From stdpp Require Import base option list gmap strings.
Import ListNotations.

#[local] Set Warnings "-inexact-float".
#[local] Open Scope string_scope.
#[local] Open Scope list_scope.

(** ** Python runtime *)

Module Py.

(** Exceptions the modelled code can meet. *)
Inductive exn : Type :=
| TypeError
| AttributeError
| IndexError
| KeyError
| OSError
| ValueError (msg : string)
| Exception (msg : string).

Inductive result (A : Type) : Type :=
| Ok (a : A)
| Raise (e : exn).
Arguments Ok {A} a.
Arguments Raise {A} e.

#[global] Instance result_ret : MRet result := @Ok.
#[global] Instance result_bind : MBind result :=
  λ A B f m, match m with Ok a => f a | Raise e => Raise e end.

(** [try: body  except Exception as e: handler e] *)
Definition try_except {A} (body : result A) (handler : exn → result A) : result A :=
  match body with
  | Ok a => Ok a
  | Raise e => handler e
  end.

Definition is_ok {A} (r : result A) : bool :=
  match r with Ok _ => true | Raise _ => false end.

(** *** Strings *)

Definition chars (s : string) : list ascii := list_ascii_of_string s.

Definition between (lo hi c : ascii) : bool :=
  (nat_of_ascii lo <=? nat_of_ascii c)%nat && (nat_of_ascii c <=? nat_of_ascii hi)%nat.

(** [c.isdigit()]: the ten digits, and the superscripts U+00B2, U+00B3 and
    U+00B9. *)
Definition char_isdigit (c : ascii) : bool :=
  let n := nat_of_ascii c in
  (between "0" "9" c || (n =? 178) || (n =? 179) || (n =? 185))%nat.

(** [c.isupper()]: A to Z, and the Latin-1 capitals U+00C0 to U+00DE but for
    the multiplication sign U+00D7. *)
Definition char_isupper (c : ascii) : bool :=
  let n := nat_of_ascii c in
  (between "A" "Z" c || (192 <=? n) && (n <=? 222) && negb (n =? 215))%nat.

(** Whitespace of [str.split()]: TAB, LF, VT, FF, CR, FS, GS, RS, US, SPACE,
    NEL (U+0085) and NBSP (U+00A0). *)
Definition char_isspace (c : ascii) : bool :=
  let n := nat_of_ascii c in
  ((9 <=? n) && (n <=? 13) || (28 <=? n) && (n <=? 32) || (n =? 133) || (n =? 160))%nat.

(** [len(s)] of a string. *)
Definition len (s : string) : Z := Z.of_nat (String.length s).

(** [s.isdigit()]: every character is a digit and there is at least one. *)
Definition isdigit (s : string) : bool :=
  match chars s with
  | [] => false
  | cs => forallb char_isdigit cs
  end.

(** [len(set(s))]: the number of distinct characters. *)
Definition set_of (s : string) : gset ascii := list_to_set (chars s).
Definition len_set (s : string) : Z := Z.of_nat (size (set_of s)).

(** [s.split()]: the maximal runs of non-whitespace characters.  [cur] is
    the word being read, in reverse. *)
Fixpoint split_go (cur : list ascii) (cs : list ascii) : list (list ascii) :=
  match cs with
  | [] => match cur with [] => [] | _ => [rev cur] end
  | c :: cs' =>
      if char_isspace c
      then match cur with
           | [] => split_go [] cs'
           | _ => rev cur :: split_go [] cs'
           end
      else split_go (c :: cur) cs'
  end.

Definition split (s : string) : list string :=
  map string_of_list_ascii (split_go [] (chars s)).

(** [any(pred(x) for x in s)] *)
Definition any (pred : ascii → bool) (s : string) : bool := existsb pred (chars s).

(** The operations of [extract_features] on a field that may be [None]:
    [len(None)] raises [TypeError], [None.split()] raises [AttributeError]. *)
Definition len_opt (o : option string) : result Z :=
  match o with
  | Some s => Ok (len s)
  | None => Raise TypeError
  end.

Definition split_opt (o : option string) : result (list string) :=
  match o with
  | Some s => Ok (split s)
  | None => Raise AttributeError
  end.

(** *** Floats *)

(** The builtins [min(a, b)] and [max(a, b)]: the first argument is kept
    unless the second is strictly smaller (resp. larger). *)
Definition min (a b : float) : float := if (b <? a)%float then b else a.
Definition max (a b : float) : float := if (a <? b)%float then b else a.

(** *** Arrays *)

(** A two-dimensional numpy array, as its list of rows.  [np.array] of a
    list of ints has an integer dtype; the transforms return floats. *)
Inductive ndarray : Type :=
| IntArray (rows : list (list Z))
| FloatArray (rows : list (list float)).

(** [np.array(features).reshape(1, -1)] *)
Definition row_vector (features : list Z) : ndarray := IntArray [features].

(** A probability matrix returned by [predict_proba]. *)
Abbreviation matrix := (list (list float)).

(** [m.shape[1]].  For an array without rows the width is not recorded:
    every use below indexes row 0 next, which raises [IndexError] for such
    an array whatever the width. *)
Definition shape1 (m : matrix) : nat :=
  match m with
  | r :: _ => List.length r
  | [] => 0
  end.

(** [l[i]] for [i >= 0], and [l[-1]]. *)
Definition getitem {A} (l : list A) (i : nat) : result A :=
  match l !! i with
  | Some x => Ok x
  | None => Raise IndexError
  end.

Definition getitem_last {A} (l : list A) : result A :=
  match last l with
  | Some x => Ok x
  | None => Raise IndexError
  end.

End Py.

Import Py.

(** ** The fitted artifacts loaded with [joblib] *)

Module Sklearn.

(** A fitted selector or scaler: [transform(X)] returns an array or raises. *)
Record Transformer : Type := { transform : ndarray → result ndarray }.

(** A fitted estimator.  [predict_proba] is [None] when the object has no
    such attribute ([hasattr] is false); it returns a matrix or raises (a
    result that is no two-dimensional array makes the indexing that follows
    raise, and is the raising case here).  [predict] returns the labels. *)
Record Estimator : Type := {
  predict_proba : option (ndarray → result matrix);
  predict : ndarray → result (list Z);
}.

(** [m.predict_proba(X)]: a missing attribute raises [AttributeError]. *)
Definition call_predict_proba (m : Estimator) (X : ndarray) : result matrix :=
  match predict_proba m with
  | Some f => f X
  | None => Raise AttributeError
  end.

End Sklearn.

Import Sklearn.

(** ** [backend/main.py] *)

Module Main.

Inductive RiskLevel : Type := Low | Medium | High.
Inductive Status : Type := Verified | Flagged.

#[global] Instance RiskLevel_eq_dec : EqDecision RiskLevel.
Proof. solve_decision. Defined.

(** The dict returned by [predict_fraud]. *)
Record ScoringResult : Type := {
  fraud_probability : float;
  risk_level : RiskLevel;
  confidence : float;
  status : Status;
}.

(** A row of the fallback CSV as [gnn_pred] reads it: the string form of
    [Document_Number] and what [float(...)] makes of the
    [GNN_Fraud_Probability] cell. *)
Record GnnRow : Type := {
  Document_Number : string;
  GNN_Fraud_Probability : result float;
}.

Abbreviation DataFrame := (list GnnRow).

(** [df.empty] *)
Definition empty (df : DataFrame) : bool :=
  match df with [] => true | _ => false end.

(** The module globals as the truth tests of [predict_fraud] leave them:
    [None] for Python's [None] (or an object that is false), [Some] for an
    object that is true.  The tests themselves are in module [Loaded]. *)
Record Globals : Type := {
  model : option Estimator;
  scaler : option Transformer;
  feature_selector : option Transformer;
  gnn_df : DataFrame;
}.

(** [class VerificationRequest]: [address] is [Optional[str]]. *)
Record VerificationRequest : Type := {
  name : string;
  documentNumber : string;
  address : option string;
  documentType : string;
}.

(** *** Feature extraction *)

(** The list display is evaluated from left to right; only the two elements
    on [address] can raise, and [len(address)] comes first. *)
Definition extract_features (name doc : string) (address : option string)
    (dtype : string) : result ndarray :=
  len_address ← len_opt address;
  address_words ← split_opt address;
  Ok (row_vector [
    len name;
    len doc;
    len_address;
    if isdigit doc then 1 else 0;
    len_set doc;
    if bool_decide (dtype = "AADHAR") then 1 else 0;
    if bool_decide (dtype = "PAN") then 1 else 0;
    if bool_decide (dtype ∈ ["PASSPORT"; "UTILITY"]) then 1 else 0;
    Z.of_nat (List.length address_words);
    Z.of_nat (List.length (split name));
    if any char_isupper name then 1 else 0;
    if any char_isdigit name then 1 else 0
  ]%Z).

(** *** Risk label *)

Definition classify (prob : float) : RiskLevel :=
  if (prob <? 0.33)%float then Low
  else if (prob <? 0.67)%float then Medium
  else High.

(** *** GNN fallback *)

(** The body of the [try] of [gnn_pred]: [Some x] when it returns [x],
    [None] when it falls through to the final [return 0.50]. *)
Definition gnn_pred_try (gnn_df : DataFrame) (doc : string) : result (option float) :=
  if empty gnn_df then Ok (Some 0.50%float)
  else
    let row := filter (λ r, Document_Number r = doc) gnn_df in
    match row with
    | r :: _ => x ← GNN_Fraud_Probability r; Ok (Some x)
    | [] => Ok None
    end.

Definition gnn_pred (gnn_df : DataFrame) (doc : string) : float :=
  match try_except (gnn_pred_try gnn_df doc) (λ _, Ok None) with
  | Ok (Some x) => x
  | _ => 0.50%float
  end.

(** *** Full prediction *)

Definition predict_fraud (g : Globals) (name doc : string)
    (address : option string) (dtype : string) : result ScoringResult :=
  X ← extract_features name doc address dtype;
  X ← match feature_selector g with
      | Some fs => try_except (transform fs X) (λ _, Ok X)
      | None => Ok X
      end;
  X ← match scaler g with
      | Some sc => try_except (transform sc X) (λ _, Ok X)
      | None => Ok X
      end;
  prob ← match model g with
         | Some m =>
             try_except
               (proba_result ← call_predict_proba m X;
                if (shape1 proba_result =? 2)%nat then
                  row ← getitem proba_result 0; getitem row 1
                else if (shape1 proba_result =? 1)%nat then
                  row ← getitem proba_result 0; getitem row 0
                else
                  row ← getitem proba_result 0; getitem_last row)
               (λ _, Ok (gnn_pred (gnn_df g) doc))
         | None => Ok (gnn_pred (gnn_df g) doc)
         end;
  let prob := max 0.0 (min 1.0 prob) in
  let risk := classify prob in
  Ok {| fraud_probability := (prob * 100)%float;
        risk_level := risk;
        confidence := ((1 - prob) * 100)%float;
        status := if decide (risk = High) then Flagged else Verified |}.

(** *** The blocks of [predict_fraud]

    The same code, block by block, for use in statements; the lemma
    [predict_fraud_blocks] below shows that [predict_fraud] is their
    composition. *)

(** One transform stage: [if t: try: X = t.transform(X) except: ...]. *)
Definition apply_stage (t : option Transformer) (X : ndarray) : ndarray :=
  match t with
  | Some tr =>
      match transform tr X with
      | Ok X' => X'
      | Raise _ => X
      end
  | None => X
  end.

(** The resolution of the shape of [proba_result], inside the [try]. *)
Definition positive_class (proba_result : matrix) : result float :=
  if (shape1 proba_result =? 2)%nat then
    row ← getitem proba_result 0; getitem row 1
  else if (shape1 proba_result =? 1)%nat then
    row ← getitem proba_result 0; getitem row 0
  else
    row ← getitem proba_result 0; getitem_last row.

(** [prob] before it is clamped: the classifier's answer, or the fallback. *)
Definition raw_probability (g : Globals) (doc : string) (X : ndarray) : float :=
  match model g with
  | Some m =>
      match proba_result ← call_predict_proba m X; positive_class proba_result with
      | Ok prob => prob
      | Raise _ => gnn_pred (gnn_df g) doc
      end
  | None => gnn_pred (gnn_df g) doc
  end.

(** The clamp, the risk label and the returned dict. *)
Definition clamp (prob : float) : float := max 0.0 (min 1.0 prob).

Definition scoring_result (prob : float) : ScoringResult :=
  let prob := clamp prob in
  let risk := classify prob in
  {| fraud_probability := (prob * 100)%float;
     risk_level := risk;
     confidence := ((1 - prob) * 100)%float;
     status := if decide (risk = High) then Flagged else Verified |}.

(** The order of the risk labels. *)
Definition rank (r : RiskLevel) : nat :=
  match r with Low => 0 | Medium => 1 | High => 2 end.

(** *** The endpoint [POST /api/verify-kyc] *)

(** The audit CSV: a header line and one line per record. *)
Module AuditRecord.
Record t : Type := {
  Timestamp : string;
  Name : string;
  ID_Type : string;
  Document_Number : string;
  Fraud_Risk : RiskLevel;
  Fraud_Probability : float;
}.
End AuditRecord.

Inductive csv_line : Type :=
| Header
| Line (r : AuditRecord.t).

(** The disk as [verify] sees it: [audit_log] is [None] while [AUDIT_LOG]
    does not exist; a disk that is not [writable] makes the write raise. *)
Record Disk : Type := {
  audit_log : option (list csv_line);
  writable : bool;
}.

(** [AUDIT_LOG.exists()] *)
Definition exists_ (d : Disk) : bool :=
  match audit_log d with Some _ => true | None => false end.

(** [df.to_csv(AUDIT_LOG, mode="a", header=..., index=False)] for a frame of
    one record. *)
Definition to_csv (r : AuditRecord.t) (header : bool) (d : Disk) : result unit * Disk :=
  if writable d then
    let old := match audit_log d with Some ls => ls | None => [] end in
    (Ok (), {| audit_log := Some (old ++ (if header then [Header] else []) ++ [Line r]);
               writable := true |})
  else (Raise OSError, d).

Module Details.
Record t : Type := {
  documentAuthenticity : string;
  addressVerification : string;
  anomalyScore : string;
}.
End Details.

Module VerificationResponse.
Record t : Type := {
  status : Status;
  id : string;
  timestamp : string;
  name : string;
  documentNumber : string;
  fraudProbability : float;
  riskLevel : RiskLevel;
  confidence : float;
  details : Details.t;
  message : string;
}.
End VerificationResponse.

(** [request.address and len(request.address) > 10] *)
Definition address_long (address : option string) : bool :=
  match address with
  | Some a => negb (bool_decide (a = "")) && (10 <? len a)%Z
  | None => false
  end.

Section Endpoint.

(** [f"{x:.2f}"], and the two readings of the clock: the id
    [f"VER{...}"] and the ISO timestamp. *)
Variable format_2f : float → string.
Variables vid ts : string.

Definition verify (g : Globals) (request : VerificationRequest) (d : Disk)
    : result VerificationResponse.t * Disk :=
  match predict_fraud g (name request) (documentNumber request)
          (address request) (documentType request) with
  | Raise e => (Raise e, d)
  | Ok result =>
      let written :=
        to_csv {| AuditRecord.Timestamp := ts;
                  AuditRecord.Name := name request;
                  AuditRecord.ID_Type := documentType request;
                  AuditRecord.Document_Number := documentNumber request;
                  AuditRecord.Fraud_Risk := risk_level result;
                  AuditRecord.Fraud_Probability := fraud_probability result |}
               (negb (exists_ d)) d in
      (* except Exception: the failure is logged and dropped *)
      let d := snd written in
      (Ok {| VerificationResponse.status := status result;
             VerificationResponse.id := vid;
             VerificationResponse.timestamp := ts;
             VerificationResponse.name := name request;
             VerificationResponse.documentNumber := documentNumber request;
             VerificationResponse.fraudProbability := fraud_probability result;
             VerificationResponse.riskLevel := risk_level result;
             VerificationResponse.confidence := confidence result;
             VerificationResponse.details :=
               {| Details.documentAuthenticity := "Valid";
                  Details.addressVerification :=
                    if address_long (address request) then "Verified" else "Pending";
                  Details.anomalyScore := format_2f (fraud_probability result) |};
             VerificationResponse.message := "KYC processed successfully." |}, d)
  end.

End Endpoint.

End Main.

(** ** [backend/predict.py] *)

Module Predict.

Import Main.

(** The module globals, loaded at import; [None] when the file is missing. *)
Record Globals : Type := {
  model : option Estimator;
  scaler : option Transformer;
  selector : option Transformer;
}.

(** The dict returned by [run_model_prediction]. *)
Record Prediction : Type := {
  fraud_probability : float;
  fraud_risk : RiskLevel;
  confidence : float;
}.

Definition doc_map : gmap string nat :=
  {[ "AADHAR" := 0; "PAN" := 1; "UTILITY" := 2 ]}.

Definition extract_features (name doc_number : string) (address : option string)
    (doc_type : string) : result ndarray :=
  let features := [len name; len doc_number] in
  len_address ← len_opt address;
  let features := features ++ [len_address] in
  let features := features ++ [if isdigit doc_number then 1 else 0]%Z in
  let features := features ++ [len_set doc_number] in
  let onehot := [0; 0; 0]%Z in
  let onehot := match doc_map !! doc_type with
                | Some i => <[i := 1%Z]> onehot
                | None => onehot
                end in
  let features := features ++ onehot in
  address_words ← split_opt address;
  let features := features ++ [Z.of_nat (List.length address_words)] in
  let features := features ++ [Z.of_nat (List.length (split name))] in
  let features := features ++ [if any char_isupper name then 1 else 0]%Z in
  let features := features ++ [if any char_isdigit name then 1 else 0]%Z in
  Ok (row_vector features).

Definition classify_risk (prob : float) : RiskLevel :=
  if (prob <? 33)%float then Low
  else if (prob <? 66)%float then Medium
  else High.

Section RunModelPrediction.

(** [round(x, 2)] on a float. *)
Variable round2 : float → float.

Definition run_model_prediction (g : Globals) (name doc_number : string)
    (address : option string) (doc_type : string) : result Prediction :=
  X ← extract_features name doc_number address doc_type;
  X ← match selector g with
      | Some s => transform s X
      | None => Ok X
      end;
  X ← match scaler g with
      | Some s => transform s X
      | None => Ok X
      end;
  match model g with
  | None => Raise (ValueError "Model not loaded. Please ensure best_model.pkl exists.")
  | Some m =>
      match predict_proba m with
      | Some f =>
          proba ← f X;
          row ← getitem proba 0;
          p ← getitem row 1;
          let prob := round2 (p * 100)%float in
          Ok {| fraud_probability := prob;
                fraud_risk := classify_risk prob;
                confidence := round2 (100 - prob)%float |}
      | None =>
          preds ← predict m X;
          pred ← getitem preds 0;
          (* 80 and 20 are ints, which [round] returns unchanged *)
          let prob := (if bool_decide (pred = 1%Z) then 80 else 20)%float in
          Ok {| fraud_probability := prob;
                fraud_risk := classify_risk prob;
                confidence := (100 - prob)%float |}
      end
  end.

End RunModelPrediction.

End Predict.

(** ** Concrete situations used in the examples *)

Module Scenario.

Import Main.

(** No artifact loaded, and the fallback table [df]. *)
Definition no_artifacts (df : DataFrame) : Main.Globals :=
  {| Main.model := None; Main.scaler := None; feature_selector := None; gnn_df := df |}.

(** Only the classifier [m] loaded, and the fallback table [df]. *)
Definition only_classifier (m : Estimator) (df : DataFrame) : Main.Globals :=
  {| Main.model := Some m; Main.scaler := None; feature_selector := None; gnn_df := df |}.

(** A transform that always raises, one that drops all but the first two
    columns of an integer array, and one that doubles every entry. *)
Definition failing : Transformer :=
  {| transform := λ _, Raise (ValueError "X has 12 features, but 3 were expected") |}.

Definition keep2 : Transformer :=
  {| transform := λ X,
       match X with
       | IntArray rows => Ok (IntArray (map (take 2) rows))
       | FloatArray rows => Ok (FloatArray (map (take 2) rows))
       end |}.

Definition double : Transformer :=
  {| transform := λ X,
       match X with
       | IntArray rows => Ok (IntArray (map (map (Z.mul 2)) rows))
       | FloatArray rows => Ok (FloatArray (map (map (PrimFloat.mul 2)) rows))
       end |}.

(** A classifier that answers [proba] whatever the input, and one that
    always raises. *)
Definition constant (proba : matrix) : Estimator :=
  {| predict_proba := Some (λ _, Ok proba); predict := λ _, Ok [0%Z] |}.

Definition broken : Estimator :=
  {| predict_proba := Some (λ _, Raise (Exception "predict_proba failed"));
     predict := λ _, Raise (Exception "predict failed") |}.

(** A fallback table with one good row and one row whose probability cell
    is no number. *)
Definition table : DataFrame :=
  [ {| Document_Number := "111"; GNN_Fraud_Probability := Ok 0.9%float |};
    {| Document_Number := "333"; GNN_Fraud_Probability := Raise (ValueError "could not convert string to float") |} ].

Definition john_doe : VerificationRequest :=
  {| name := "John Doe"; documentNumber := "123456789";
     address := Some "123 Main St"; documentType := "PASSPORT" |}.

Definition fresh_disk : Disk := {| audit_log := None; writable := true |}.
Definition full_disk : Disk := {| audit_log := Some [Header]; writable := false |}.

(** Nothing loaded in [predict.py]. *)
Definition nothing_loaded : Predict.Globals :=
  {| Predict.model := None; Predict.scaler := None; Predict.selector := None |}.

End Scenario.

(** ** [backend/main.py]: startup and the status endpoint *)

Module Startup.

Import Main.

(** What lies under [BASE_DIR], as the startup code reads it: the outcome of
    [joblib.load] on each artifact file (the loaded object is given by its
    methods here; its truth value is attached in module [Loaded]), the
    fallback CSV ([None] while the file is missing, else what [pd.read_csv]
    makes of it), and whether the directory accepts a new file. *)
Record Files : Type := {
  best_model_pkl : result Estimator;
  scaler_pkl : result Transformer;
  feature_selector_pkl : result Transformer;
  gnn_csv : option (result DataFrame);
  csv_writable : bool;
}.

(** [GNN_CSV.exists()] *)
Definition gnn_csv_exists (f : Files) : bool :=
  match gnn_csv f with Some _ => true | None => false end.

(** [ensure_gnn_csv]: a missing file is created with the two column names
    and no row. *)
Definition ensure_gnn_csv (f : Files) : result unit * Files :=
  if negb (gnn_csv_exists f) then
    if csv_writable f then
      (Ok (), {| best_model_pkl := best_model_pkl f;
                 scaler_pkl := scaler_pkl f;
                 feature_selector_pkl := feature_selector_pkl f;
                 gnn_csv := Some (Ok []);
                 csv_writable := true |})
    else (Raise OSError, f)
  else (Ok (), f).

(** [load_models]: three independent [try] blocks. *)
Definition load_models (f : Files) (g : Globals) : Globals :=
  let model :=
    match best_model_pkl f with Ok m => Some m | Raise _ => None end in
  let scaler :=
    match scaler_pkl f with Ok s => Some s | Raise _ => None end in
  let feature_selector :=
    match feature_selector_pkl f with Ok s => Some s | Raise _ => None end in
  {| Main.model := model; Main.scaler := scaler;
     Main.feature_selector := feature_selector; gnn_df := gnn_df g |}.

(** [pd.read_csv(GNN_CSV)] *)
Definition read_csv (f : Files) : result DataFrame :=
  match gnn_csv f with
  | Some content => content
  | None => Raise OSError
  end.

Definition set_gnn_df (g : Globals) (df : DataFrame) : Globals :=
  {| Main.model := Main.model g; Main.scaler := Main.scaler g;
     Main.feature_selector := Main.feature_selector g; gnn_df := df |}.

(** [load_gnn]: one [try] around the creation of a missing file and the
    read; any exception leaves the table empty. *)
Definition load_gnn (f : Files) (g : Globals) : Globals * Files :=
  let ensured := if negb (gnn_csv_exists f) then ensure_gnn_csv f else (Ok (), f) in
  let f := snd ensured in
  let df :=
    match fst ensured with
    | Ok _ =>
        match read_csv f with
        | Ok df => if empty df then [] else df
        | Raise _ => []
        end
    | Raise _ => []
    end in
  (set_gnn_df g df, f).

(** The globals as the module body leaves them. *)
Definition initial : Globals :=
  {| Main.model := None; Main.scaler := None; Main.feature_selector := None; gnn_df := [] |}.

(** [startup_event]: [ensure_gnn_csv(); load_models(); load_gnn()]. *)
Definition startup_event (f : Files) (g : Globals) : result Globals * Files :=
  match ensure_gnn_csv f with
  | (Raise e, f) => (Raise e, f)
  | (Ok _, f) =>
      let g := load_models f g in
      let loaded := load_gnn f g in
      (Ok (fst loaded), snd loaded)
  end.

(** The dict of [GET /]. *)
Module Home.
Record t : Type := {
  message : string;
  model : string;
  scaler : string;
  selector : string;
  gnn_csv : string;
}.
End Home.

Definition home (g : Globals) : Home.t :=
  {| Home.message := "KYC API running";
     Home.model := if Main.model g is Some _ then "Loaded" else "Not Loaded";
     Home.scaler := if Main.scaler g is Some _ then "Loaded" else "Not Loaded";
     Home.selector := if Main.feature_selector g is Some _ then "Loaded" else "Not Loaded";
     Home.gnn_csv := if negb (empty (gnn_df g)) then "Available" else "Empty" |}.

End Startup.

(** ** [backend/main.py]: the debug endpoint [GET /admin/test-prediction] *)

Module Debug.

Import Main.

(** [X.tolist()[0]]: the first row as a Python list. *)
Inductive pylist : Type :=
| Ints (l : list Z)
| Floats (l : list float).

Definition tolist0 (X : ndarray) : result pylist :=
  match X with
  | IntArray rows => r ← getitem rows 0; Ok (Ints r)
  | FloatArray rows => r ← getitem rows 0; Ok (Floats r)
  end.

(** [X.shape].  For an array without rows the width is not recorded and is
    given as 0. *)
Definition shape (X : ndarray) : nat * nat :=
  match X with
  | IntArray rows => (List.length rows, match rows with r :: _ => List.length r | [] => 0 end)
  | FloatArray rows => (List.length rows, shape1 rows)
  end.

Record TestCase : Type := {
  name : string;
  doc : string;
  address : string;
  dtype : string;
}.

(** The dict built for one test case; a key that was not set is [None]. *)
Record TestResult : Type := {
  input : TestCase;
  features_shape : nat * nat;
  features : pylist;
  after_selector_shape : option (nat * nat);
  after_selector : option pylist;
  selector_error : option exn;
  after_scaler_shape : option (nat * nat);
  after_scaler : option pylist;
  scaler_error : option exn;
  model_proba_shape : option (nat * nat);
  model_proba : option (list float);
  fraud_prob : option float;
  prediction : option ScoringResult;
  model_error : option exn;
}.

(** One transform block of [test_prediction]: the keys it sets and the
    array handed on.  The shape is recorded before [tolist()[0]] can raise,
    and [X] is replaced only after both. *)
Definition transform_block (t : option Transformer) (X : ndarray)
    : option (nat * nat) * option pylist * option exn * ndarray :=
  match t with
  | Some tr =>
      match transform tr X with
      | Ok X' =>
          match tolist0 X' with
          | Ok l => (Some (shape X'), Some l, None, X')
          | Raise e => (Some (shape X'), None, Some e, X)
          end
      | Raise e => (None, None, Some e, X)
      end
  | None => (None, None, None, X)
  end.

(** The body of the loop of [test_prediction]. *)
Definition test_case (g : Globals) (test : TestCase) : result TestResult :=
  X ← extract_features (name test) (doc test) (Some (address test)) (dtype test);
  features0 ← tolist0 X;
  let result_shape := shape X in
  let '(sel_shape, sel_list, sel_error, X) := transform_block (feature_selector g) X in
  let '(sc_shape, sc_list, sc_error, X) := transform_block (scaler g) X in
  let partial proba_shape proba fp pred err :=
    {| input := test; features_shape := result_shape; features := features0;
       after_selector_shape := sel_shape; after_selector := sel_list;
       selector_error := sel_error;
       after_scaler_shape := sc_shape; after_scaler := sc_list;
       scaler_error := sc_error;
       model_proba_shape := proba_shape; model_proba := proba;
       fraud_prob := fp; prediction := pred; model_error := err |} in
  match model g with
  | None => Ok (partial None None None None None)
  | Some m =>
      match call_predict_proba m X with
      | Raise e => Ok (partial None None None None (Some e))
      | Ok proba =>
          (* [proba.shape]; the width of a matrix without rows is given as 0 *)
          let proba_shape := Some (List.length proba, shape1 proba) in
          match getitem proba 0 with
          | Raise e => Ok (partial proba_shape None None None (Some e))
          | Ok row =>
              match getitem row 1 with
              | Raise e => Ok (partial proba_shape (Some row) None None (Some e))
              | Ok p =>
                  match predict_fraud g (name test) (doc test)
                          (Some (address test)) (dtype test) with
                  | Raise e => Ok (partial proba_shape (Some row) (Some p) None (Some e))
                  | Ok r => Ok (partial proba_shape (Some row) (Some p) (Some r) None)
                  end
              end
          end
      end
  end.

Definition test_cases : list TestCase :=
  [ {| name := "John Doe"; doc := "123456789"; address := "123 Main St"; dtype := "PASSPORT" |};
    {| name := "Jane Smith"; doc := "987654321"; address := "456 Oak Ave"; dtype := "AADHAR" |} ].

Record TestReport : Type := {
  model_loaded : bool;
  scaler_loaded : bool;
  selector_loaded : bool;
  test_results : list TestResult;
}.

Definition test_prediction (g : Globals) : result TestReport :=
  results ← mapM (test_case g) test_cases;
  Ok {| model_loaded := bool_decide (is_Some (model g));
        scaler_loaded := bool_decide (is_Some (scaler g));
        selector_loaded := bool_decide (is_Some (feature_selector g));
        test_results := results |}.

End Debug.

(** ** [backend/load_models.py] *)

Module LoadModels.

Section LoadAllModels.

(** The loaded objects, and [joblib.load(BASE_DIR / file)]. *)
Variable obj : Type.
Variable joblib_load : string → result obj.

(** [load_all_models]: one [try] around the four loads; the dict keeps what
    was loaded before the first failure. *)
Definition load_all_models : gmap string obj :=
  let models : gmap string obj := ∅ in
  match joblib_load "best_model.pkl" with
  | Raise _ => models
  | Ok o =>
      let models := <["model" := o]> models in
      match joblib_load "feature_selector.pkl" with
      | Raise _ => models
      | Ok o =>
          let models := <["selector" := o]> models in
          match joblib_load "scaler.pkl" with
          | Raise _ => models
          | Ok o =>
              let models := <["scaler" := o]> models in
              match joblib_load "output_of_GNN_model.pkl" with
              | Raise _ => models
              | Ok o => <["gnn_output" := o]> models
              end
          end
      end
  end.

End LoadAllModels.

End LoadModels.

(** ** [data_encoding_pipeline_with_summary.py]: the column names *)

Module Encoding.

(** [s.lstrip()] and [s.strip()] on the characters of [s]. *)
Fixpoint lstrip (cs : list ascii) : list ascii :=
  match cs with
  | c :: cs' => if char_isspace c then lstrip cs' else cs
  | [] => []
  end.

Definition strip (cs : list ascii) : list ascii := rev (lstrip (rev (lstrip cs))).

(** [s.lower()] *)
Definition char_lower (c : ascii) : ascii :=
  if char_isupper c then ascii_of_nat (nat_of_ascii c + 32) else c.

Definition lower (cs : list ascii) : list ascii := map char_lower cs.

(** [re.sub(r'\s+', '_', s)]: every maximal run of whitespace becomes one
    underscore; [in_run] tells that the run was already replaced. *)
Fixpoint sub_go (in_run : bool) (cs : list ascii) : list ascii :=
  match cs with
  | c :: cs' =>
      if char_isspace c
      then if in_run then sub_go true cs' else "_"%char :: sub_go true cs'
      else c :: sub_go false cs'
  | [] => []
  end.

Definition sub_whitespace (cs : list ascii) : list ascii := sub_go false cs.

(** [re.sub(r'\s+', '_', c.strip().lower())], the new name of column [c]. *)
Definition clean_column (c : string) : string :=
  string_of_list_ascii (sub_whitespace (lower (strip (chars c)))).

End Encoding.

(** ** [backend/main.py] with the truth tests of the globals *)

Module Loaded.

Import Main.

(** A loaded object: what taking its truth value gives, as [if obj:] does,
    and its methods.  The truth value of a fitted estimator is [True]; an
    object with [__len__] is true when it is not empty; for a numpy array
    with several elements the test raises [ValueError]. *)
Record Object (A : Type) : Type := {
  truth : result bool;
  methods : A;
}.
Arguments truth {A} _.
Arguments methods {A} _.

(** The module globals: [None], or the object that was loaded. *)
Record Globals : Type := {
  model : option (Object Estimator);
  scaler : option (Object Transformer);
  feature_selector : option (Object Transformer);
  gnn_df : DataFrame;
}.

(** [if obj:] on a global.  [None] is false; the answer is the methods of
    the object when the test is true. *)
Definition truth_test {A} (obj : option (Object A)) : result (option A) :=
  match obj with
  | None => Ok None
  | Some o =>
      match truth o with
      | Ok true => Ok (Some (methods o))
      | Ok false => Ok None
      | Raise e => Raise e
      end
  end.

(** [predict_fraud], the three truth tests included: they are taken outside
    the [try] blocks. *)
Definition predict_fraud (G : Globals) (name doc : string)
    (address : option string) (dtype : string) : result ScoringResult :=
  X ← extract_features name doc address dtype;
  selector ← truth_test (feature_selector G);
  X ← match selector with
      | Some fs => try_except (transform fs X) (λ _, Ok X)
      | None => Ok X
      end;
  scaler ← truth_test (scaler G);
  X ← match scaler with
      | Some sc => try_except (transform sc X) (λ _, Ok X)
      | None => Ok X
      end;
  model ← truth_test (model G);
  prob ← match model with
         | Some m =>
             try_except
               (proba_result ← call_predict_proba m X;
                if (shape1 proba_result =? 2)%nat then
                  row ← getitem proba_result 0; getitem row 1
                else if (shape1 proba_result =? 1)%nat then
                  row ← getitem proba_result 0; getitem row 0
                else
                  row ← getitem proba_result 0; getitem_last row)
               (λ _, Ok (gnn_pred (gnn_df G) doc))
         | None => Ok (gnn_pred (gnn_df G) doc)
         end;
  let prob := max 0.0 (min 1.0 prob) in
  let risk := classify prob in
  Ok {| fraud_probability := (prob * 100)%float;
        risk_level := risk;
        confidence := ((1 - prob) * 100)%float;
        status := if decide (risk = High) then Flagged else Verified |}.

(** The outcome of the three truth tests, in the order [predict_fraud]
    takes them: the globals as module [Main] has them, or the exception of
    the first test that raises. *)
Definition settle (G : Globals) : result Main.Globals :=
  selector ← truth_test (feature_selector G);
  scaler ← truth_test (scaler G);
  model ← truth_test (model G);
  Ok {| Main.model := model; Main.scaler := scaler;
        Main.feature_selector := selector; Main.gnn_df := gnn_df G |}.

(** The globals [load_models] sets, with the truth value of each loaded
    object. *)
Definition with_truth {A} (t : result bool) (o : option A) : option (Object A) :=
  match o with
  | Some m => Some {| truth := t; methods := m |}
  | None => None
  end.

Definition loaded (truth_model truth_scaler truth_selector : result bool)
    (g : Main.Globals) : Globals :=
  {| model := with_truth truth_model (Main.model g);
     scaler := with_truth truth_scaler (Main.scaler g);
     feature_selector := with_truth truth_selector (Main.feature_selector g);
     gnn_df := Main.gnn_df g |}.

Section Endpoint.

Variable format_2f : float → string.
Variables vid ts : string.

(** [verify], on [predict_fraud] with its truth tests. *)
Definition verify (G : Globals) (request : VerificationRequest) (d : Disk)
    : result VerificationResponse.t * Disk :=
  match predict_fraud G (name request) (documentNumber request)
          (address request) (documentType request) with
  | Raise e => (Raise e, d)
  | Ok result =>
      let written :=
        to_csv {| AuditRecord.Timestamp := ts;
                  AuditRecord.Name := name request;
                  AuditRecord.ID_Type := documentType request;
                  AuditRecord.Document_Number := documentNumber request;
                  AuditRecord.Fraud_Risk := risk_level result;
                  AuditRecord.Fraud_Probability := fraud_probability result |}
               (negb (exists_ d)) d in
      let d := snd written in
      (Ok {| VerificationResponse.status := status result;
             VerificationResponse.id := vid;
             VerificationResponse.timestamp := ts;
             VerificationResponse.name := name request;
             VerificationResponse.documentNumber := documentNumber request;
             VerificationResponse.fraudProbability := fraud_probability result;
             VerificationResponse.riskLevel := risk_level result;
             VerificationResponse.confidence := confidence result;
             VerificationResponse.details :=
               {| Details.documentAuthenticity := "Valid";
                  Details.addressVerification :=
                    if address_long (address request) then "Verified" else "Pending";
                  Details.anomalyScore := format_2f (fraud_probability result) |};
             VerificationResponse.message := "KYC processed successfully." |}, d)
  end.

End Endpoint.

(** The body of the loop of [test_prediction]: the truth tests of lines
    310, 318 and 326 stand outside the [try] blocks; the call of
    [predict_fraud] stands inside the last one. *)
Definition test_case (G : Globals) (test : Debug.TestCase) : result Debug.TestResult :=
  X ← extract_features (Debug.name test) (Debug.doc test)
        (Some (Debug.address test)) (Debug.dtype test);
  features0 ← Debug.tolist0 X;
  let result_shape := Debug.shape X in
  selector ← truth_test (feature_selector G);
  let '(sel_shape, sel_list, sel_error, X) := Debug.transform_block selector X in
  scaler ← truth_test (scaler G);
  let '(sc_shape, sc_list, sc_error, X) := Debug.transform_block scaler X in
  model ← truth_test (model G);
  let partial proba_shape proba fp pred err :=
    {| Debug.input := test; Debug.features_shape := result_shape;
       Debug.features := features0;
       Debug.after_selector_shape := sel_shape; Debug.after_selector := sel_list;
       Debug.selector_error := sel_error;
       Debug.after_scaler_shape := sc_shape; Debug.after_scaler := sc_list;
       Debug.scaler_error := sc_error;
       Debug.model_proba_shape := proba_shape; Debug.model_proba := proba;
       Debug.fraud_prob := fp; Debug.prediction := pred; Debug.model_error := err |} in
  match model with
  | None => Ok (partial None None None None None)
  | Some m =>
      match call_predict_proba m X with
      | Raise e => Ok (partial None None None None (Some e))
      | Ok proba =>
          (* [proba.shape]; the width of a matrix without rows is given as 0 *)
          let proba_shape := Some (List.length proba, shape1 proba) in
          match getitem proba 0 with
          | Raise e => Ok (partial proba_shape None None None (Some e))
          | Ok row =>
              match getitem row 1 with
              | Raise e => Ok (partial proba_shape (Some row) None None (Some e))
              | Ok p =>
                  match predict_fraud G (Debug.name test) (Debug.doc test)
                          (Some (Debug.address test)) (Debug.dtype test) with
                  | Raise e => Ok (partial proba_shape (Some row) (Some p) None (Some e))
                  | Ok r => Ok (partial proba_shape (Some row) (Some p) (Some r) None)
                  end
              end
          end
      end
  end.

(** [test_prediction]; the three flags are [is not None] tests. *)
Definition test_prediction (G : Globals) : result Debug.TestReport :=
  results ← mapM (test_case G) Debug.test_cases;
  Ok {| Debug.model_loaded := bool_decide (is_Some (model G));
        Debug.scaler_loaded := bool_decide (is_Some (scaler G));
        Debug.selector_loaded := bool_decide (is_Some (feature_selector G));
        Debug.test_results := results |}.

End Loaded.

(** ** Further situations used in the examples *)

Module Cases.

Import Main.

(** A table with two rows for the same document. *)
Definition duplicated : DataFrame :=
  [ {| Document_Number := "555"; GNN_Fraud_Probability := Ok 0.2%float |};
    {| Document_Number := "777"; GNN_Fraud_Probability := Ok 0.7%float |};
    {| Document_Number := "777"; GNN_Fraud_Probability := Ok 0.1%float |} ].

(** An estimator with [predict] only, answering the label [l]. *)
Definition label_only (l : Z) : Estimator :=
  {| predict_proba := None; predict := λ _, Ok [l] |}.

(** [predict.py] with only such a model loaded, and with a classifier
    behind a selector that raises. *)
Definition only_labels (l : Z) : Predict.Globals :=
  {| Predict.model := Some (label_only l); Predict.scaler := None; Predict.selector := None |}.

Definition behind_failing_selector : Predict.Globals :=
  {| Predict.model := Some (Scenario.constant [[0.2; 0.8]%float]);
     Predict.scaler := None; Predict.selector := Some Scenario.failing |}.

(** The result for the neutral probability 0.50. *)
Definition neutral : ScoringResult :=
  {| Main.fraud_probability := 50%float; risk_level := Medium;
     Main.confidence := 50%float; status := Verified |}.

(** A fitted transform or estimator as an object: its truth value is
    [True].  And a numpy array of several elements loaded in the place of a
    selector: its truth test raises, and it has no [transform]. *)
Definition fitted {A} (m : A) : Loaded.Object A :=
  {| Loaded.truth := Ok true; Loaded.methods := m |}.

Definition an_array : Loaded.Object Transformer :=
  {| Loaded.truth :=
       Raise (ValueError "The truth value of an array with more than one element is ambiguous. Use a.any() or a.all()");
     Loaded.methods := {| transform := λ _, Raise AttributeError |} |}.

(** The objects of a running service: a fitted selector that fails on the
    twelve features, a fitted doubling scaler, no model. *)
Definition fitted_objects : Loaded.Globals :=
  {| Loaded.model := None;
     Loaded.scaler := Some (fitted Scenario.double);
     Loaded.feature_selector := Some (fitted Scenario.failing);
     Loaded.gnn_df := [] |}.

(** The same with the array in the place of the selector. *)
Definition array_as_selector : Loaded.Globals :=
  {| Loaded.model := None;
     Loaded.scaler := Some (fitted Scenario.double);
     Loaded.feature_selector := Some an_array;
     Loaded.gnn_df := [] |}.

(** A directory with no artifact and no CSV, one with a selector file only,
    and one with a readable CSV and a scaler only. *)
Definition bare : Startup.Files :=
  {| Startup.best_model_pkl := Raise OSError;
     Startup.scaler_pkl := Raise OSError;
     Startup.feature_selector_pkl := Raise OSError;
     Startup.gnn_csv := None;
     Startup.csv_writable := true |}.

Definition selector_only : Startup.Files :=
  {| Startup.best_model_pkl := Raise OSError;
     Startup.scaler_pkl := Raise OSError;
     Startup.feature_selector_pkl := Ok Scenario.failing;
     Startup.gnn_csv := None;
     Startup.csv_writable := true |}.

Definition with_table : Startup.Files :=
  {| Startup.best_model_pkl := Raise OSError;
     Startup.scaler_pkl := Ok Scenario.double;
     Startup.feature_selector_pkl := Raise OSError;
     Startup.gnn_csv := Some (Ok duplicated);
     Startup.csv_writable := false |}.

End Cases.

Import Main.

(** ** The order of binary64 numbers

    [<?] and [<=?] on [float] are specified by [SFcompare] on the decoded
    numbers; the facts below hold for every pair of floats, NaN and the
    infinities included. *)

Ltac sf_cases :=
  repeat match goal with s : bool |- _ => destruct s end; simpl;
  repeat match goal with
  | |- context [PosDef.Pos.compare_cont Eq ?a ?b] =>
      change (PosDef.Pos.compare_cont Eq a b) with (Pos.compare a b)
  end;
  repeat match goal with
  | |- context [(?a ?= ?b)%Z] => destruct (Z.compare_spec a b); subst; simpl
  end;
  repeat match goal with
  | |- context [(?a ?= ?b)%positive] => destruct (Pos.compare_spec a b); subst; simpl
  end;
  try (discriminate || reflexivity || lia || (intros; assumption) || (intros; lia)).

Lemma SFleb_ltb_trans x y z : SFleb x y = true → SFltb y z = true → SFltb x z = true.
Proof.
  unfold SFleb, SFltb.
  destruct x as [sx|sx| |sx mx ex], y as [sy|sy| |sy my ey], z as [sz|sz| |sz mz ez];
    simpl; sf_cases.
Qed.

Lemma SFltb_leb_trans x y z : SFltb x y = true → SFleb y z = true → SFltb x z = true.
Proof.
  unfold SFleb, SFltb.
  destruct x as [sx|sx| |sx mx ex], y as [sy|sy| |sy my ey], z as [sz|sz| |sz mz ez];
    simpl; sf_cases.
Qed.

Lemma SFleb_not_gt x y : SFleb x y = true → SFltb y x = false.
Proof.
  unfold SFleb, SFltb.
  destruct x as [sx|sx| |sx mx ex], y as [sy|sy| |sy my ey]; simpl; sf_cases.
Qed.

Lemma SFltb_leb x y : SFltb x y = true → SFleb x y = true.
Proof. unfold SFleb, SFltb. destruct (SFcompare x y) as [[]|]; congruence. Qed.

Lemma SFcompare_total x y z :
  SFltb x z = true → SFleb y y = true → SFltb y x = false → SFleb x y = true.
Proof.
  unfold SFleb, SFltb.
  destruct x as [sx|sx| |sx mx ex], y as [sy|sy| |sy my ey], z as [sz|sz| |sz mz ez];
    simpl; sf_cases.
Qed.

Section FloatOrder.

#[local] Open Scope float_scope.

Lemma ltb_leb x y : (x <? y) = true → (x <=? y) = true.
Proof. rewrite ltb_spec, leb_spec. apply SFltb_leb. Qed.

Lemma leb_ltb_trans x y z : (x <=? y) = true → (y <? z) = true → (x <? z) = true.
Proof. rewrite !ltb_spec, leb_spec. apply SFleb_ltb_trans. Qed.

Lemma ltb_leb_trans x y z : (x <? y) = true → (y <=? z) = true → (x <? z) = true.
Proof. rewrite !ltb_spec, leb_spec. apply SFltb_leb_trans. Qed.

Lemma leb_not_gt x y : (x <=? y) = true → (y <? x) = false.
Proof. rewrite ltb_spec, leb_spec. apply SFleb_not_gt. Qed.

(** A number below some [z] is no NaN; it is then comparable with every
    [y] that is no NaN either. *)
Lemma not_gt_leb x y z :
  (x <? z) = true → (y <=? y) = true → (y <? x) = false → (x <=? y) = true.
Proof. rewrite !ltb_spec, !leb_spec. apply SFcompare_total. Qed.

End FloatOrder.

(** ** The risk label and the clamp *)

Section RiskLabel.

#[local] Open Scope float_scope.

Lemma classify_low p : (p <? 0.33) = true → classify p = Low.
Proof. intros H. unfold classify. now rewrite H. Qed.

Lemma classify_medium p :
  (0.33 <=? p) = true → (p <? 0.67) = true → classify p = Medium.
Proof.
  intros H1 H2. unfold classify. now rewrite (leb_not_gt _ _ H1), H2.
Qed.

Lemma classify_high p : (0.67 <=? p) = true → classify p = High.
Proof.
  intros H. unfold classify.
  assert (H67 : (p <? 0.67) = false) by now apply leb_not_gt.
  destruct (p <? 0.33) eqn:H33.
  - assert ((p <? 0.67) = true) by (apply (ltb_leb_trans _ 0.33); [assumption | reflexivity]).
    congruence.
  - now rewrite H67.
Qed.

Lemma classify_monotone p q : (p <=? q) = true → (rank (classify p) ≤ rank (classify q))%nat.
Proof.
  intros Hpq. unfold classify at 2.
  destruct (q <? 0.33) eqn:Hq33.
  - rewrite (classify_low p); [reflexivity | now apply (leb_ltb_trans _ q)].
  - destruct (q <? 0.67) eqn:Hq67.
    + assert (Hp : (p <? 0.67) = true) by now apply (leb_ltb_trans _ q).
      unfold classify. rewrite Hp. destruct (p <? 0.33); simpl; lia.
    + destruct (classify p); simpl; lia.
Qed.

Lemma classify_cases p : classify p = Low ∨ classify p = Medium ∨ classify p = High.
Proof. destruct (classify p); auto. Qed.

(** The clamped value lies in [0, 1], whatever the raw value. *)
Lemma clamp_range p : (0 <=? clamp p) = true ∧ (clamp p <=? 1) = true.
Proof.
  unfold clamp, Py.max, Py.min.
  destruct (p <? 1) eqn:H1.
  - destruct (0 <? p) eqn:H0.
    + split; now apply ltb_leb.
    + split; reflexivity.
  - split; reflexivity.
Qed.

(** Clamping does not change the label: both thresholds lie inside [0, 1]. *)
Lemma classify_clamp p : classify (clamp p) = classify p.
Proof.
  unfold clamp, Py.max, Py.min.
  destruct (p <? 1) eqn:H1.
  - destruct (0 <? p) eqn:H0; [reflexivity|].
    symmetry. apply classify_low.
    apply (leb_ltb_trans _ 0); [|reflexivity].
    now apply (not_gt_leb _ _ 1).
  - change (High = classify p). unfold classify.
    destruct (p <? 0.33) eqn:H33.
    + assert ((p <? 1) = true) by (apply (ltb_leb_trans _ 0.33); [assumption | reflexivity]).
      congruence.
    + destruct (p <? 0.67) eqn:H67; [|reflexivity].
      assert ((p <? 1) = true) by (apply (ltb_leb_trans _ 0.67); [assumption | reflexivity]).
      congruence.
Qed.

End RiskLabel.

(** ** The composition of the pipeline *)

Ltac unfold_result := unfold mbind, result_bind, try_except in *; simpl in *.

Lemma extract_features_some name doc addr dtype :
  ∃ features, List.length features = 12 ∧
    extract_features name doc (Some addr) dtype = Ok (row_vector features).
Proof. unfold extract_features. unfold_result. eexists. split; [|reflexivity]. reflexivity. Qed.

Lemma extract_features_none name doc dtype :
  extract_features name doc None dtype = Raise TypeError.
Proof. reflexivity. Qed.

Lemma predict_fraud_blocks g name doc address dtype :
  predict_fraud g name doc address dtype =
  X ← extract_features name doc address dtype;
  Ok (scoring_result
        (raw_probability g doc
           (apply_stage (scaler g) (apply_stage (feature_selector g) X)))).
Proof.
  unfold predict_fraud, raw_probability, apply_stage, positive_class.
  destruct (extract_features name doc address dtype) as [X|e]; [|reflexivity].
  unfold_result.
  destruct (feature_selector g) as [fs|]; [destruct (transform fs X) as [X1|e1]|];
    (destruct (scaler g) as [sc|]; [destruct (transform sc _) as [X2|e2]|]);
    (destruct (model g) as [m|]; [|reflexivity]);
    (destruct (call_predict_proba m _) as [proba|e3]; [|reflexivity]);
    repeat match goal with
    | |- context [if (?a =? ?b)%nat then _ else _] => destruct (a =? b)%nat
    | |- context [match getitem ?l ?i with _ => _ end] => destruct (getitem l i)
    | |- context [match getitem_last ?l with _ => _ end] => destruct (getitem_last l)
    end; reflexivity.
Qed.

Lemma predict_fraud_some g name doc addr dtype :
  ∃ X, extract_features name doc (Some addr) dtype = Ok X ∧
    predict_fraud g name doc (Some addr) dtype =
    Ok (scoring_result
          (raw_probability g doc
             (apply_stage (scaler g) (apply_stage (feature_selector g) X)))).
Proof.
  destruct (extract_features_some name doc addr dtype) as (fs & _ & HX).
  eexists. split; [exact HX|]. now rewrite predict_fraud_blocks, HX.
Qed.

(** ** The one-hot slots of the two feature extractors *)

Lemma passport_or_utility (t : string) :
  bool_decide (t ∈ ["PASSPORT"; "UTILITY"]) =
  bool_decide (t = "PASSPORT") || bool_decide (t = "UTILITY").
Proof.
  assert (H : t ∈ ["PASSPORT"; "UTILITY"] ↔ t = "PASSPORT" ∨ t = "UTILITY").
  { rewrite !elem_of_cons, elem_of_nil. tauto. }
  repeat case_bool_decide; simpl; try reflexivity; exfalso; tauto.
Qed.

Lemma doc_map_lookup (t : string) :
  Predict.doc_map !! t =
  if decide (t = "AADHAR") then Some 0
  else if decide (t = "PAN") then Some 1
  else if decide (t = "UTILITY") then Some 2 else None.
Proof.
  unfold Predict.doc_map.
  repeat (rewrite lookup_insert; case_decide; subst; [repeat case_decide; congruence|]).
  rewrite lookup_singleton. repeat case_decide; congruence.
Qed.

(** Outside PASSPORT the two extractors agree, on every input. *)
Lemma extract_features_agree name doc address dtype :
  dtype ≠ "PASSPORT" →
  Predict.extract_features name doc address dtype =
  Main.extract_features name doc address dtype.
Proof.
  intros Hd. unfold Predict.extract_features, Main.extract_features.
  destruct address as [addr|]; [|reflexivity].
  unfold_result. rewrite doc_map_lookup, passport_or_utility.
  repeat case_decide; subst; repeat case_bool_decide; simpl;
    try reflexivity; congruence.
Qed.

(** The one-hot slots of [main.extract_features]: slot 8 is set exactly for
    PASSPORT and UTILITY, and no slot for any other type. *)
Lemma main_one_hot name doc addr dtype :
  ∃ f1 f2 f3 f4 f5 f9 f10 f11 f12,
    Main.extract_features name doc (Some addr) dtype =
    Ok (row_vector [f1; f2; f3; f4; f5;
                    if decide (dtype = "AADHAR") then 1 else 0;
                    if decide (dtype = "PAN") then 1 else 0;
                    if decide (dtype = "PASSPORT" ∨ dtype = "UTILITY") then 1 else 0;
                    f9; f10; f11; f12]%Z).
Proof.
  unfold Main.extract_features. unfold_result. rewrite passport_or_utility.
  do 9 eexists.
  repeat case_decide; repeat case_bool_decide; simpl; try reflexivity; exfalso; tauto.
Qed.

(** ** The fallback lookup *)

Lemma gnn_pred_empty doc : gnn_pred [] doc = 0.50%float.
Proof. reflexivity. Qed.

Lemma filter_no_match (df : DataFrame) (doc : string) :
  Forall (λ r, Document_Number r ≠ doc) df →
  filter (λ r, Document_Number r = doc) df = [].
Proof.
  induction 1 as [|r df Hr _ IH]; [reflexivity|].
  rewrite filter_cons. now destruct (decide (Document_Number r = doc)).
Qed.

Lemma gnn_pred_missing df doc :
  Forall (λ r, Document_Number r ≠ doc) df → gnn_pred df doc = 0.50%float.
Proof.
  intros H. unfold gnn_pred, gnn_pred_try.
  rewrite (filter_no_match _ _ H). now destruct (empty df).
Qed.

Lemma gnn_pred_error df doc e :
  gnn_pred_try df doc = Raise e → gnn_pred df doc = 0.50%float.
Proof. intros H. unfold gnn_pred. now rewrite H. Qed.

(** The first row whose key is [doc] decides. *)
Lemma gnn_pred_found before r after doc x :
  Forall (λ r, Document_Number r ≠ doc) before →
  Document_Number r = doc → GNN_Fraud_Probability r = Ok x →
  gnn_pred (before ++ r :: after) doc = x.
Proof.
  intros Hb Hr Hx. unfold gnn_pred, gnn_pred_try.
  rewrite filter_app, (filter_no_match _ _ Hb), filter_cons.
  destruct (decide (Document_Number r = doc)); [|contradiction].
  destruct before; simpl; now rewrite Hx.
Qed.

(** ** Where the raw probability comes from *)

Lemma getitem_elem_of {A} (l : list A) i x : getitem l i = Ok x → x ∈ l.
Proof.
  unfold getitem. destruct (l !! i) as [y|] eqn:H; [|discriminate].
  intros [= <-]. now apply list_elem_of_lookup_2 in H.
Qed.

Lemma getitem_last_elem_of {A} (l : list A) x : getitem_last l = Ok x → x ∈ l.
Proof.
  unfold getitem_last. destruct (last l) as [y|] eqn:H; [|discriminate].
  intros [= <-]. now apply last_Some_elem_of.
Qed.

Lemma positive_class_source proba x :
  positive_class proba = Ok x → ∃ row, proba !! 0 = Some row ∧ x ∈ row.
Proof.
  unfold positive_class, getitem at 1 3 5.
  destruct proba as [|row rest]; simpl.
  - repeat match goal with |- context [if ?b then _ else _] => destruct b end; discriminate.
  - intros H. exists row. split; [reflexivity|].
    repeat match type of H with context [if ?b then _ else _] => destruct b end;
      eauto using getitem_elem_of, getitem_last_elem_of.
Qed.

Lemma raw_probability_source g doc X :
  raw_probability g doc X = gnn_pred (gnn_df g) doc ∨
  ∃ m proba row, model g = Some m ∧ call_predict_proba m X = Ok proba ∧
    proba !! 0 = Some row ∧ raw_probability g doc X ∈ row.
Proof.
  unfold raw_probability.
  destruct (model g) as [m|]; [|now left].
  destruct (call_predict_proba m X) as [proba|e] eqn:Hp; [|now left].
  unfold_result.
  destruct (positive_class proba) as [x|e] eqn:Hx; [|now left].
  right. destruct (positive_class_source _ _ Hx) as (row & H0 & Hin).
  now exists m, proba, row.
Qed.

Lemma predict_extract_features_some name doc addr dtype :
  ∃ X, Predict.extract_features name doc (Some addr) dtype = Ok X.
Proof. unfold Predict.extract_features. unfold_result. eauto. Qed.

(** ** Runs of the model *)

Import Scenario.
Import Cases.

Example split_runs_of_whitespace : split "  a b   c " = ["a"; "b"; "c"].
Proof. reflexivity. Qed.

Example empty_strings_give_zeros :
  Main.extract_features "" "" (Some "") "OTHER" =
  Ok (row_vector [0; 0; 0; 0; 0; 0; 0; 0; 0; 0; 0; 0]%Z).
Proof. reflexivity. Qed.

Example selector_changes_the_width :
  apply_stage (Some keep2) (IntArray [[8; 9; 11]%Z]) = IntArray [[8; 9]%Z].
Proof. reflexivity. Qed.

Example nan_is_clamped_to_one : clamp nan = 1%float ∧ classify nan = High.
Proof. split; reflexivity. Qed.

Example out_of_range_is_clamped :
  clamp 1.7 = 1%float ∧ clamp (-3) = 0%float ∧ clamp infinity = 1%float.
Proof. repeat split. Qed.

(** A classifier that raises, or that has no [predict_proba] at all, sends
    the request to the fallback table. *)
Example broken_classifier_falls_back :
  predict_fraud (only_classifier broken table) "Jane Smith" "111" (Some "456 Oak Ave") "AADHAR" =
    Ok (scoring_result 0.9%float) ∧
  predict_fraud (only_classifier {| predict_proba := None; predict := λ _, Ok [1%Z] |} table)
    "Jane Smith" "111" (Some "456 Oak Ave") "AADHAR" = Ok (scoring_result 0.9%float).
Proof. split; reflexivity. Qed.

(** The audit line: a new file gets the header and the line; a disk that
    refuses the write is left as it was, and the response is the same. *)
Example audit_on_a_fresh_disk (format_2f : float → string) :
  snd (verify format_2f "VER1" "2025-01-01T00:00:00" (no_artifacts []) john_doe fresh_disk) =
  {| audit_log := Some [Header;
                        Line {| AuditRecord.Timestamp := "2025-01-01T00:00:00";
                                AuditRecord.Name := "John Doe";
                                AuditRecord.ID_Type := "PASSPORT";
                                AuditRecord.Document_Number := "123456789";
                                AuditRecord.Fraud_Risk := Medium;
                                AuditRecord.Fraud_Probability := 50%float |}];
     writable := true |}.
Proof. reflexivity. Qed.

Example audit_on_a_full_disk (format_2f : float → string) :
  snd (verify format_2f "VER1" "2025-01-01T00:00:00" (no_artifacts []) john_doe full_disk) =
    full_disk ∧
  fst (verify format_2f "VER1" "2025-01-01T00:00:00" (no_artifacts []) john_doe full_disk) =
  fst (verify format_2f "VER1" "2025-01-01T00:00:00" (no_artifacts []) john_doe fresh_disk).
Proof. split; reflexivity. Qed.

(** ** The entry points never fail, or fail by design *)

(** With the truth tests passed, the code is the one of module [Main] on
    the globals the tests leave; a test that raises ends the call. *)
Lemma loaded_predict_fraud_settled G g name doc address dtype :
  Loaded.settle G = Ok g →
  Loaded.predict_fraud G name doc address dtype = predict_fraud g name doc address dtype.
Proof.
  unfold Loaded.settle, Loaded.predict_fraud, predict_fraud.
  destruct (Loaded.truth_test (Loaded.feature_selector G)) as [fs|e1]; [|discriminate].
  destruct (Loaded.truth_test (Loaded.scaler G)) as [sc|e2]; [|discriminate].
  destruct (Loaded.truth_test (Loaded.model G)) as [m|e3]; [|discriminate].
  unfold_result. intros [= <-]. reflexivity.
Qed.

Lemma loaded_predict_fraud_raises G e name doc addr dtype :
  Loaded.settle G = Raise e →
  Loaded.predict_fraud G name doc (Some addr) dtype = Raise e.
Proof.
  unfold Loaded.settle, Loaded.predict_fraud.
  destruct (extract_features_some name doc addr dtype) as (fs0 & _ & ->).
  destruct (Loaded.truth_test (Loaded.feature_selector G)) as [fs|e1];
    [|unfold_result; congruence].
  destruct (Loaded.truth_test (Loaded.scaler G)) as [sc|e2].
  - destruct (Loaded.truth_test (Loaded.model G)) as [m|e3]; [discriminate|].
    unfold_result. intros [= <-].
    destruct fs as [fs|]; [destruct (transform fs _)|];
      (destruct sc as [sc|]; [destruct (transform sc _)|]); reflexivity.
  - unfold_result. intros [= <-].
    destruct fs as [fs|]; [destruct (transform fs _)|]; reflexivity.
Qed.

Lemma loaded_verify_settled format_2f vid ts G g request d :
  Loaded.settle G = Ok g →
  Loaded.verify format_2f vid ts G request d = verify format_2f vid ts g request d.
Proof.
  intros H. unfold Loaded.verify, verify.
  now rewrite (loaded_predict_fraud_settled G g _ _ _ _ H).
Qed.

(** C1 (amended).  For every request whose string fields are non-null, and
    provided that taking the truth value of each loaded artifact does not
    raise, [main.predict_fraud] and the endpoint [main.verify] return a
    result whatever the artifacts do (absent, false, raising, malformed
    answers), whatever the fallback table holds, and whether or not the
    audit line can be written: the response does not depend on the disk.
    The tests [if feature_selector:], [if scaler:], [if model:] stand outside
    every [try]: when one of them raises, the exception of the first that
    does leaves [predict_fraud] and [verify], and nothing is written.
    [predict.run_model_prediction] does not share the guarantee: with the
    classifier absent it never returns a result. *)
Theorem C1_main_entry_points_total
    (format_2f : float → string) (vid ts : string) (G : Loaded.Globals)
    (name doc addr dtype : string) :
  let request := {| Main.name := name; documentNumber := doc;
                    address := Some addr; documentType := dtype |} in
  (∀ g, Loaded.settle G = Ok g →
     (∃ r, Loaded.predict_fraud G name doc (Some addr) dtype = Ok r) ∧
     (∃ resp, ∀ d : Disk, ∃ d',
        Loaded.verify format_2f vid ts G request d = (Ok resp, d'))) ∧
  (∀ e, Loaded.settle G = Raise e →
     Loaded.predict_fraud G name doc (Some addr) dtype = Raise e ∧
     ∀ d : Disk, Loaded.verify format_2f vid ts G request d = (Raise e, d)) ∧
  (∀ round2 sc sel,
     is_ok (Predict.run_model_prediction round2
              {| Predict.model := None; Predict.scaler := sc; Predict.selector := sel |}
              name doc (Some addr) dtype) = false).
Proof.
  intros request. split; [|split].
  - intros g Hg.
    destruct (predict_fraud_some g name doc addr dtype) as (X & HX & Hp).
    split.
    + rewrite (loaded_predict_fraud_settled G g _ _ _ _ Hg). eauto.
    + unfold Loaded.verify. subst request. simpl.
      rewrite (loaded_predict_fraud_settled G g _ _ _ _ Hg), Hp.
      eexists. intros d. eexists. reflexivity.
  - intros e He. pose proof (loaded_predict_fraud_raises G e name doc addr dtype He) as Hp.
    split; [exact Hp|]. intros d. unfold Loaded.verify. subst request. simpl.
    now rewrite Hp.
  - intros round2 sc sel. unfold Predict.run_model_prediction.
    destruct (predict_extract_features_some name doc addr dtype) as (X' & ->).
    unfold_result.
    destruct sel as [s|]; [destruct (transform s X')|]; try reflexivity;
      (destruct sc as [s'|]; [destruct (transform s' _)|]); reflexivity.
Qed.

(** Fitted objects, the selector failing on the features: the request is
    answered.  An array in the place of the selector: [ValueError]. *)
Lemma C1_fitted_objects_and_an_array :
  (∃ r, Loaded.predict_fraud fitted_objects "John Doe" "123456789" (Some "123 Main St")
          "PASSPORT" = Ok r) ∧
  Loaded.predict_fraud array_as_selector "John Doe" "123456789" (Some "123 Main St")
    "PASSPORT" =
  Raise (ValueError "The truth value of an array with more than one element is ambiguous. Use a.any() or a.all()").
Proof.
  split.
  - exact (proj1 (proj1 (C1_main_entry_points_total (λ _, "50.00") "VER1" "t" fitted_objects
                           "John Doe" "123456789" "123 Main St" "PASSPORT") _ eq_refl)).
  - exact (proj1 (proj1 (proj2 (C1_main_entry_points_total (λ _, "50.00") "VER1" "t"
                                  array_as_selector
                                  "John Doe" "123456789" "123 Main St" "PASSPORT")) _ eq_refl)).
Defined.

(** C1, as stated, fails for [predict.run_model_prediction]: called with its
    default arguments and no [best_model.pkl], it raises [ValueError]
    ([round] is not reached). *)
Lemma C1_run_model_prediction_raises :
  Predict.run_model_prediction (λ x, x) nothing_loaded
    "Test User" "123456789" (Some "Sample address 123") "AADHAR" =
  Raise (ValueError "Model not loaded. Please ensure best_model.pkl exists.").
Proof. reflexivity. Qed.

(** C10.  [address] is [Optional[str]]: a request may carry [None].  For
    every such request [extract_features] raises [TypeError], and so do
    [predict_fraud] and the endpoint, which leaves the audit log untouched;
    [predict_fraud] returns a result exactly when the address is a string. *)
Theorem C10_null_address_raises
    (format_2f : float → string) (vid ts : string) (g : Main.Globals)
    (name doc dtype : string) (d : Disk) :
  Main.extract_features name doc None dtype = Raise TypeError ∧
  predict_fraud g name doc None dtype = Raise TypeError ∧
  verify format_2f vid ts g
    {| Main.name := name; documentNumber := doc; address := None; documentType := dtype |} d
    = (Raise TypeError, d) ∧
  (∀ address, is_ok (predict_fraud g name doc address dtype) = true ↔ is_Some address).
Proof.
  do 3 (split; [reflexivity|]).
  intros [addr|]; split.
  - eauto.
  - intros _. destruct (predict_fraud_some g name doc addr dtype) as (X & _ & ->).
    reflexivity.
  - rewrite predict_fraud_blocks. discriminate.
  - intros [addr ->].
    destruct (predict_fraud_some g name doc addr dtype) as (X & _ & ->). reflexivity.
Qed.

(** ** The transform stages *)

(** C5.  The selector is applied first and the scaler to what the selector
    stage hands on.  A stage whose artifact is absent, or whose [transform]
    raises, hands on the vector it received; in every case the pipeline
    goes on and returns a result, scored on the output of the scaler
    stage. *)
Theorem C5_transform_stages g name doc address dtype X0 :
  Main.extract_features name doc address dtype = Ok X0 →
  let X1 := apply_stage (feature_selector g) X0 in
  let X2 := apply_stage (Main.scaler g) X1 in
  (feature_selector g = None → X1 = X0) ∧
  (∀ fs e, feature_selector g = Some fs → transform fs X0 = Raise e → X1 = X0) ∧
  (∀ fs X', feature_selector g = Some fs → transform fs X0 = Ok X' → X1 = X') ∧
  (Main.scaler g = None → X2 = X1) ∧
  (∀ sc e, Main.scaler g = Some sc → transform sc X1 = Raise e → X2 = X1) ∧
  (∀ sc X', Main.scaler g = Some sc → transform sc X1 = Ok X' → X2 = X') ∧
  predict_fraud g name doc address dtype = Ok (scoring_result (raw_probability g doc X2)).
Proof.
  intros HX X1 X2. subst X2 X1. unfold apply_stage.
  repeat split.
  - now intros ->.
  - now intros fs e -> ->.
  - now intros fs X' -> ->.
  - now intros ->.
  - now intros sc e -> ->.
  - now intros sc X' -> ->.
  - now rewrite predict_fraud_blocks, HX.
Qed.

(** A failing selector in front of a doubling scaler: the scaler receives
    the twelve raw features. *)
Lemma C5_failing_selector_then_scaler :
  let g := {| Main.model := Some (constant [[0.1; 0.9]%float]);
              Main.scaler := Some double;
              feature_selector := Some failing;
              gnn_df := [] |} in
  apply_stage (Main.scaler g) (apply_stage (feature_selector g)
     (IntArray [[8; 9; 11; 1; 9; 0; 0; 1; 3; 2; 1; 0]%Z])) =
    IntArray [[16; 18; 22; 2; 18; 0; 0; 2; 6; 4; 2; 0]%Z] ∧
  predict_fraud g "John Doe" "123456789" (Some "123 Main St") "PASSPORT" =
    Ok (scoring_result 0.9%float).
Proof.
  intros g.
  destruct (C5_transform_stages g "John Doe" "123456789" (Some "123 Main St") "PASSPORT"
              (IntArray [[8; 9; 11; 1; 9; 0; 0; 1; 3; 2; 1; 0]%Z]) eq_refl)
    as (_ & Hsel & _ & _ & _ & Hsc & Hp).
  split.
  - rewrite (Hsc double _ eq_refl eq_refl).
    + reflexivity.
  - exact Hp.
Defined.

(** ** The classifier's answer *)

(** C6.  When the classifier answers a matrix with first row [row], the
    probability the pipeline goes on with is the second entry of [row] when
    the matrix has two columns, its only entry when it has one column, and
    its last entry for any other width.  (A row of width 0 has no entry:
    indexing raises and the fallback is used.) *)
Theorem C6_shape_resolution g m f name doc addr dtype X row rest :
  Main.extract_features name doc (Some addr) dtype = Ok X →
  Main.model g = Some m → predict_proba m = Some f →
  f (apply_stage (Main.scaler g) (apply_stage (feature_selector g) X)) = Ok (row :: rest) →
  (∀ a b, row = [a; b] →
     predict_fraud g name doc (Some addr) dtype = Ok (scoring_result b)) ∧
  (∀ a, row = [a] →
     predict_fraud g name doc (Some addr) dtype = Ok (scoring_result a)) ∧
  (∀ init x, row = init ++ [x] → List.length row ≠ 2 → List.length row ≠ 1 →
     predict_fraud g name doc (Some addr) dtype = Ok (scoring_result x)) ∧
  (row = [] →
     predict_fraud g name doc (Some addr) dtype =
     Ok (scoring_result (gnn_pred (gnn_df g) doc))).
Proof.
  intros HX Hm Hf Hrow.
  rewrite predict_fraud_blocks, HX. unfold_result.
  unfold raw_probability, call_predict_proba. rewrite Hm, Hf, Hrow.
  unfold_result. unfold positive_class, shape1. unfold_result.
  repeat split.
  - now intros a b ->.
  - now intros a ->.
  - intros init x -> H2 H1.
    destruct (Nat.eqb_spec (List.length (init ++ [x])) 2); [contradiction|].
    destruct (Nat.eqb_spec (List.length (init ++ [x])) 1); [contradiction|].
    unfold getitem_last. now rewrite last_snoc.
  - now intros ->.
Qed.

(** Three columns: the last one is taken; two columns: the second. *)
Lemma C6_three_and_two_columns :
  predict_fraud (only_classifier (constant [[0.7; 0.2; 0.1]%float]) [])
    "John Doe" "123456789" (Some "123 Main St") "PASSPORT" = Ok (scoring_result 0.1%float)
  ∧
  predict_fraud (only_classifier (constant [[0.2; 0.8]%float]) [])
    "John Doe" "123456789" (Some "123 Main St") "PASSPORT" = Ok (scoring_result 0.8%float).
Proof.
  split.
  - refine (proj1 (proj2 (proj2
      (C6_shape_resolution (only_classifier (constant [[0.7; 0.2; 0.1]%float]) [])
         (constant [[0.7; 0.2; 0.1]%float]) (λ _, Ok [[0.7; 0.2; 0.1]%float])
         "John Doe" "123456789" "123 Main St" "PASSPORT" _ _ [] eq_refl eq_refl eq_refl eq_refl)))
      [0.7; 0.2]%float 0.1%float eq_refl _ _); simpl; lia.
  - exact (proj1
      (C6_shape_resolution (only_classifier (constant [[0.2; 0.8]%float]) [])
         (constant [[0.2; 0.8]%float]) (λ _, Ok [[0.2; 0.8]%float])
         "John Doe" "123456789" "123 Main St" "PASSPORT" _ _ [] eq_refl eq_refl eq_refl eq_refl)
      0.2%float 0.8%float eq_refl).
Defined.

(** C7.  Whatever raw value the classifier or the fallback table gives (out
    of range, infinite or NaN), the value that is bucketed is
    [max(0.0, min(1.0, raw))] and lies in [0, 1]. *)
Theorem C7_clamp_before_bucketing g name doc addr dtype :
  (∀ raw : float,
     clamp raw = Py.max 0 (Py.min 1 raw) ∧
     (0 <=? clamp raw)%float = true ∧ (clamp raw <=? 1)%float = true) ∧
  ∃ raw : float,
    (raw = gnn_pred (gnn_df g) doc ∨
     ∃ m X proba row, Main.model g = Some m ∧ call_predict_proba m X = Ok proba ∧
       proba !! 0 = Some row ∧ raw ∈ row) ∧
    ∃ r, predict_fraud g name doc (Some addr) dtype = Ok r ∧
      risk_level r = classify (clamp raw) ∧
      Main.fraud_probability r = (clamp raw * 100)%float.
Proof.
  split.
  - intros raw. split; [reflexivity|]. apply clamp_range.
  - destruct (predict_fraud_some g name doc addr dtype) as (X0 & _ & ->).
    eexists. split; [|eexists; repeat split].
    destruct (raw_probability_source g doc
                (apply_stage (Main.scaler g) (apply_stage (feature_selector g) X0)))
      as [H|(m & proba & row & H)]; [now left|right; eauto 6].
Qed.

(** ** The returned result *)



(** C4 (amended).  The fallback lookup returns exactly 0.50 when the table is
    empty, when no row has the document number as its key (compared as
    strings), and when the lookup raises.  With the classifier absent the
    pipeline's result is the one built from the fallback value: its risk
    level is the bucket of that value, and its probability field is the
    clamped value as a percentage.  So classifier absent plus missing key
    yields [fraud_probability] exactly 50.0 (which is 0.50 * 100) and risk
    level Medium. *)
Theorem C4_fallback g name doc addr dtype :
  (∀ doc', gnn_pred [] doc' = 0.50%float) ∧
  (∀ df doc', Forall (λ r, Document_Number r ≠ doc') df → gnn_pred df doc' = 0.50%float) ∧
  (∀ df doc' e, gnn_pred_try df doc' = Raise e → gnn_pred df doc' = 0.50%float) ∧
  (Main.model g = None →
     predict_fraud g name doc (Some addr) dtype = Ok (scoring_result (gnn_pred (gnn_df g) doc)) ∧
     risk_level (scoring_result (gnn_pred (gnn_df g) doc)) = classify (gnn_pred (gnn_df g) doc)) ∧
  (Main.model g = None → Forall (λ r, Document_Number r ≠ doc) (gnn_df g) →
     predict_fraud g name doc (Some addr) dtype =
     Ok {| Main.fraud_probability := (0.50 * 100)%float; risk_level := Medium;
           Main.confidence := 50%float; status := Verified |}).
Proof.
  assert (Hnone : Main.model g = None →
            predict_fraud g name doc (Some addr) dtype =
            Ok (scoring_result (gnn_pred (gnn_df g) doc))).
  { intros Hm. destruct (predict_fraud_some g name doc addr dtype) as (X & _ & ->).
    unfold raw_probability. now rewrite Hm. }
  split; [|split; [|split; [|split]]].
  - apply gnn_pred_empty.
  - apply gnn_pred_missing.
  - apply gnn_pred_error.
  - intros Hm. split; [now apply Hnone|].
    unfold scoring_result. simpl. apply classify_clamp.
  - intros Hm Hmiss. rewrite (Hnone Hm), (gnn_pred_missing _ _ Hmiss). reflexivity.
Qed.

(** The table [table] has no row for "222", and reading its row "333"
    raises; either way the lookup gives 0.50 and the pipeline, with no
    classifier, reports 50 and Medium. *)
Lemma C4_missing_key_and_bad_cell :
  gnn_pred table "222" = 0.50%float ∧
  gnn_pred table "333" = 0.50%float ∧
  predict_fraud (no_artifacts table) "John Doe" "222" (Some "123 Main St") "PAN" =
    Ok {| Main.fraud_probability := (0.50 * 100)%float; risk_level := Medium;
          Main.confidence := 50%float; status := Verified |}.
Proof.
  pose proof (C4_fallback (no_artifacts table) "John Doe" "222" "123 Main St" "PAN")
    as (_ & Hmiss & Herr & _ & Hpipe).
  assert (Hno : Forall (λ r, Document_Number r ≠ "222") table).
  { repeat constructor; simpl; discriminate. }
  split; [exact (Hmiss table "222" Hno)|].
  split; [exact (Herr table "333" _ eq_refl)|].
  exact (Hpipe eq_refl Hno).
Defined.

(** C4, as stated, fails on the scale of the result: with the classifier
    absent and no row for the document, the probability the pipeline returns
    is 50, not 0.50. *)
Lemma C4_returned_probability_is_50 :
  ∃ r, predict_fraud (no_artifacts table) "John Doe" "222" (Some "123 Main St") "PAN" = Ok r ∧
    Main.fraud_probability r = 50%float ∧
    Main.fraud_probability r ≠ 0.50%float.
Proof.
  eexists. split; [reflexivity|]. split; [reflexivity|].
  intros H. apply (f_equal (λ x, (x =? 0.50)%float)) in H. vm_compute in H. discriminate.
Qed.

(** C8 (amended).  For name "John Doe", document number "123456789", address
    "123 Main St" and type PASSPORT the features are
    [8, 9, 11, 1, 9, 0, 0, 1, 3, 2, 1, 0] (the document number has nine
    distinct characters); with no artifact and an empty fallback table the
    pipeline returns [fraud_probability] 50.0 (0.50 as a percentage),
    confidence 50.0, risk level Medium and status Verified. *)
Theorem C8_john_doe :
  Main.extract_features "John Doe" "123456789" (Some "123 Main St") "PASSPORT" =
    Ok (row_vector [8; 9; 11; 1; 9; 0; 0; 1; 3; 2; 1; 0]%Z) ∧
  gnn_pred [] "123456789" = 0.50%float ∧
  predict_fraud (no_artifacts []) "John Doe" "123456789" (Some "123 Main St") "PASSPORT" =
    Ok {| Main.fraud_probability := 50%float; risk_level := Medium;
          Main.confidence := 50%float; status := Verified |} ∧
  (0.50 * 100 = 50)%float.
Proof. repeat split. Qed.

(** C8, as stated, fails: the fifth feature is 9, not 8, and the returned
    probability is 50, not 0.50. *)
Lemma C8_fifth_feature_is_9 :
  Main.extract_features "John Doe" "123456789" (Some "123 Main St") "PASSPORT" ≠
    Ok (row_vector [8; 9; 11; 1; 8; 0; 0; 1; 3; 2; 1; 0]%Z) ∧
  len_set "123456789" = 9%Z ∧
  ∃ r, predict_fraud (no_artifacts []) "John Doe" "123456789" (Some "123 Main St") "PASSPORT" = Ok r ∧
    Main.fraud_probability r ≠ 0.50%float.
Proof.
  split; [|split].
  - vm_compute. discriminate.
  - reflexivity.
  - eexists. split; [reflexivity|].
    intros H. apply (f_equal (λ x, (x =? 0.50)%float)) in H. vm_compute in H. discriminate.
Qed.

(** ** The two risk classifiers *)

Section ClassifyRisk.

#[local] Open Scope float_scope.

(** [predict.classify_risk] works on percentages, with thresholds 33 and 66. *)
Lemma classify_risk_low p : (p <? 33) = true → Predict.classify_risk p = Low.
Proof. intros H. unfold Predict.classify_risk. now rewrite H. Qed.

Lemma classify_risk_medium p :
  (33 <=? p) = true → (p <? 66) = true → Predict.classify_risk p = Medium.
Proof.
  intros H1 H2. unfold Predict.classify_risk. now rewrite (leb_not_gt _ _ H1), H2.
Qed.

Lemma classify_risk_high p : (66 <=? p) = true → Predict.classify_risk p = High.
Proof.
  intros H. unfold Predict.classify_risk.
  assert (H66 : (p <? 66) = false) by now apply leb_not_gt.
  destruct (p <? 33) eqn:H33.
  - assert ((p <? 66) = true) by (apply (ltb_leb_trans _ 33); [assumption | reflexivity]).
    congruence.
  - now rewrite H66.
Qed.

Lemma classify_risk_monotone p q :
  (p <=? q) = true → (rank (Predict.classify_risk p) ≤ rank (Predict.classify_risk q))%nat.
Proof.
  intros Hpq. unfold Predict.classify_risk at 2.
  destruct (q <? 33) eqn:Hq33.
  - rewrite (classify_risk_low p); [reflexivity | now apply (leb_ltb_trans _ q)].
  - destruct (q <? 66) eqn:Hq66.
    + assert (Hp : (p <? 66) = true) by now apply (leb_ltb_trans _ q).
      unfold Predict.classify_risk. rewrite Hp. destruct (p <? 33); simpl; lia.
    + destruct (Predict.classify_risk p); simpl; lia.
Qed.

(** The buckets of [main.classify], as the specification gives them. *)
Lemma classify_buckets :
  (∀ p, classify p = Low ∨ classify p = Medium ∨ classify p = High) ∧
  (∀ p q, (p <=? q) = true → (rank (classify p) ≤ rank (classify q))%nat) ∧
  (∀ p, (p <? 0.33) = true → classify p = Low) ∧
  (∀ p, (0.33 <=? p) = true → (p <? 0.67) = true → classify p = Medium) ∧
  (∀ p, (0.67 <=? p) = true → classify p = High) ∧
  classify 0.33 = Medium ∧ classify 0.67 = High.
Proof.
  split; [exact classify_cases|]. split; [exact classify_monotone|].
  split; [exact classify_low|]. split; [exact classify_medium|].
  split; [exact classify_high|]. split; reflexivity.
Qed.

(** C2.  [main.classify] has the buckets of the claim ([classify_buckets]).
    [predict.classify_risk] does not: its upper threshold is 66, so the
    percentage 66, which lies in [33, 67), is labelled High, while
    [main.classify] labels the same probability 0.66 Medium.  The lower
    boundary and the value 67 are labelled alike by both. *)
Theorem C2_classify_risk_upper_threshold :
  (33 <=? 66) = true ∧ (66 <? 67) = true ∧
  Predict.classify_risk 66 = High ∧
  classify 0.66 = Medium ∧
  Predict.classify_risk 33 = Medium ∧ classify 0.33 = Medium ∧
  Predict.classify_risk 67 = High ∧ classify 0.67 = High.
Proof. repeat split. Qed.

End ClassifyRisk.

(** ** The two feature extractors *)

(** C9.  The two extractors differ on every PASSPORT request: the third
    one-hot slot is 1 in [main.extract_features] and 0 in
    [predict.extract_features], whose [doc_map] has no PASSPORT key.  On any
    other document type they agree ([extract_features_agree]), and
    [main.extract_features] has the slots of the claim ([main_one_hot]). *)
Theorem C9_passport_slot name doc addr :
  Main.extract_features name doc (Some addr) "PASSPORT" ≠
  Predict.extract_features name doc (Some addr) "PASSPORT" ∧
  Predict.doc_map !! "PASSPORT" = None ∧
  Main.extract_features "John Doe" "123456789" (Some "123 Main St") "PASSPORT" =
    Ok (row_vector [8; 9; 11; 1; 9; 0; 0; 1; 3; 2; 1; 0]%Z) ∧
  Predict.extract_features "John Doe" "123456789" (Some "123 Main St") "PASSPORT" =
    Ok (row_vector [8; 9; 11; 1; 9; 0; 0; 0; 3; 2; 1; 0]%Z).
Proof.
  split; [|split; [|split]]; try reflexivity.
  unfold Main.extract_features, Predict.extract_features. unfold_result.
  rewrite doc_map_lookup. simpl. intros [=].
Qed.

(** * Further properties of the code *)

Import Cases.

(** ** The features *)

Lemma string_length_chars s : String.length s = List.length (chars s).
Proof. unfold chars. induction s as [|c s IH]; simpl; [reflexivity|now rewrite IH]. Qed.

Lemma len_set_le_len doc : (0 ≤ len_set doc ≤ len doc)%Z.
Proof.
  unfold len_set, len, set_of, chars.
  assert (H : (size (list_to_set (list_ascii_of_string doc) : gset ascii)
               ≤ List.length (list_ascii_of_string doc))%nat).
  { induction (list_ascii_of_string doc) as [|c cs IH].
    - rewrite list_to_set_nil, size_empty. reflexivity.
    - rewrite list_to_set_cons, size_union_alt, size_singleton. simpl.
      pose proof (subseteq_size (list_to_set cs ∖ {[c]}) (list_to_set cs : gset ascii)) as Hs.
      assert (list_to_set cs ∖ {[c]} ⊆ (list_to_set cs : gset ascii))
        by (intros x [Hx _]%elem_of_difference; exact Hx).
      specialize (Hs H). lia. }
  rewrite (string_length_chars doc). unfold chars. lia.
Qed.

Lemma isdigit_len_set doc : isdigit doc = true → (1 ≤ len_set doc)%Z.
Proof.
  unfold isdigit, len_set, set_of. intros H.
  destruct (chars doc) as [|c cs] eqn:Hc; [discriminate|].
  assert (Hpos : size (list_to_set (c :: cs) : gset ascii) ≠ 0%nat).
  { apply size_non_empty_iff. intros He.
    assert (Hin : c ∈ (list_to_set (c :: cs) : gset ascii))
      by (apply elem_of_list_to_set; left).
    rewrite He in Hin. now apply not_elem_of_empty in Hin. }
  lia.
Qed.

Lemma split_go_bound cur cs :
  (2 * List.length (split_go cur cs)
   ≤ List.length cs + match cur with [] => 1 | _ => 2 end)%nat.
Proof.
  revert cur. induction cs as [|c cs IH]; intros cur; simpl.
  - destruct cur; simpl; lia.
  - destruct (char_isspace c).
    + destruct cur; simpl; specialize (IH []); simpl in IH; lia.
    + specialize (IH (c :: cur)). simpl in IH. destruct cur; lia.
Qed.

Lemma split_bound s : (0 ≤ 2 * Z.of_nat (List.length (split s)) ≤ len s + 1)%Z.
Proof.
  unfold split, len. rewrite length_map.
  pose proof (split_go_bound [] (chars s)) as H. simpl in H.
  rewrite (string_length_chars s). lia.
Qed.

Lemma split_go_nil cs : split_go [] cs = [] ↔ forallb char_isspace cs = true.
Proof.
  assert (Hne : ∀ cs cur, cur ≠ [] → split_go cur cs ≠ []).
  { clear. induction cs as [|c cs IH]; intros cur Hc; simpl.
    - now destruct cur.
    - destruct (char_isspace c); [now destruct cur|]. now apply IH. }
  induction cs as [|c cs IH]; simpl; [tauto|].
  destruct (char_isspace c); simpl; [exact IH|].
  split; [|discriminate]. intros H. now apply Hne in H.
Qed.

Lemma any_nonempty pred s : any pred s = true → (1 ≤ len s)%Z.
Proof. unfold any, chars, len. destruct s; simpl; [discriminate|lia]. Qed.

(** X1.  For a request with a non-null address [main.extract_features]
    returns twelve numbers bound by the following relations: the distinct
    characters of the document number are at most its length, and at least
    one when the number is all digits; the word counts are at most half the
    length plus one half, and the one of the address is 0 exactly when the
    address holds only whitespace; the flags are 0 or 1, at most one of the
    three type slots is set, and a set name flag needs a non-empty name. *)
Theorem X1_feature_relations name doc addr dtype :
  ∃ f1 f2 f3 f4 f5 f6 f7 f8 f9 f10 f11 f12 : Z,
    Main.extract_features name doc (Some addr) dtype =
      Ok (row_vector [f1; f2; f3; f4; f5; f6; f7; f8; f9; f10; f11; f12]) ∧
    (f1 = len name ∧ f2 = len doc ∧ f3 = len addr) ∧
    (0 ≤ f5 ≤ f2)%Z ∧
    (f4 = 0 ∨ f4 = 1 ∧ 1 ≤ f5)%Z ∧
    (0 ≤ f6 ∧ 0 ≤ f7 ∧ 0 ≤ f8 ∧ f6 + f7 + f8 ≤ 1)%Z ∧
    (0 ≤ 2 * f9 ≤ f3 + 1)%Z ∧ (0 ≤ 2 * f10 ≤ f1 + 1)%Z ∧
    (f9 = 0%Z ↔ forallb char_isspace (chars addr) = true) ∧
    (f11 = 0 ∨ f11 = 1 ∧ 1 ≤ f1)%Z ∧ (f12 = 0 ∨ f12 = 1 ∧ 1 ≤ f1)%Z.
Proof.
  unfold Main.extract_features. unfold_result. rewrite passport_or_utility.
  do 12 eexists. split; [reflexivity|].
  split; [auto|]. split; [apply len_set_le_len|].
  split.
  { destruct (isdigit doc) eqn:Hd; [right|left; reflexivity].
    split; [reflexivity|]. now apply isdigit_len_set. }
  split.
  { repeat case_bool_decide; simpl; subst; try lia; discriminate. }
  split; [apply split_bound|]. split; [apply split_bound|].
  split.
  { unfold split. rewrite length_map, <- split_go_nil.
    destruct (split_go [] (chars addr)); simpl; split; (lia || discriminate || reflexivity). }
  split.
  - destruct (any char_isupper name) eqn:H; [right|left; reflexivity].
    split; [reflexivity|]. now apply any_nonempty in H.
  - destruct (any char_isdigit name) eqn:H; [right|left; reflexivity].
    split; [reflexivity|]. now apply any_nonempty in H.
Qed.

(** X2.  The three type slots of [main.extract_features] hold exactly one 1
    when the document type is one of AADHAR, PAN, PASSPORT, UTILITY, spelled
    so, and no 1 for any other string. *)
Theorem X2_one_hot_slots name doc addr dtype :
  ∃ f1 f2 f3 f4 f5 f6 f7 f8 f9 f10 f11 f12 : Z,
    Main.extract_features name doc (Some addr) dtype =
      Ok (row_vector [f1; f2; f3; f4; f5; f6; f7; f8; f9; f10; f11; f12]) ∧
    (f6 + f7 + f8)%Z =
      (if bool_decide (dtype ∈ ["AADHAR"; "PAN"; "PASSPORT"; "UTILITY"]) then 1 else 0)%Z ∧
    (f6 = 1%Z ↔ dtype = "AADHAR") ∧ (f7 = 1%Z ↔ dtype = "PAN") ∧
    (f8 = 1%Z ↔ dtype = "PASSPORT" ∨ dtype = "UTILITY").
Proof.
  unfold Main.extract_features. unfold_result. rewrite passport_or_utility.
  do 12 eexists. split; [reflexivity|].
  assert (Hin : dtype ∈ ["AADHAR"; "PAN"; "PASSPORT"; "UTILITY"] ↔
                dtype = "AADHAR" ∨ dtype = "PAN" ∨ dtype = "PASSPORT" ∨ dtype = "UTILITY").
  { rewrite !elem_of_cons, elem_of_nil. tauto. }
  repeat case_bool_decide; simpl; subst;
    repeat split; intros; try discriminate; try lia; try tauto;
    try (exfalso; tauto); try (destruct_or!; congruence).
Qed.

(** X3.  [predict.extract_features] returns the same as
    [main.extract_features] on every input whose document type is not
    PASSPORT, a null address included (both raise [TypeError]). *)
Theorem X3_extractors_agree_off_passport name doc address dtype :
  dtype ≠ "PASSPORT" →
  Predict.extract_features name doc address dtype =
  Main.extract_features name doc address dtype.
Proof. apply extract_features_agree. Qed.

Lemma X3_utility_agrees :
  Predict.extract_features "Jane Smith" "AB12" (Some "456 Oak Ave") "UTILITY" =
  Main.extract_features "Jane Smith" "AB12" (Some "456 Oak Ave") "UTILITY".
Proof. apply X3_extractors_agree_off_passport. discriminate. Defined.

(** ** The fallback table *)

(** X4.  [gnn_pred] reads the first row whose key is the document number
    and no other: its cell's value is returned when it is a number, and
    0.50 when it is not, whatever rows for the same document follow. *)
Theorem X4_first_match_decides before r after doc :
  Forall (λ r', Document_Number r' ≠ doc) before →
  Document_Number r = doc →
  gnn_pred (before ++ r :: after) doc =
  match GNN_Fraud_Probability r with
  | Ok x => x
  | Raise _ => 0.50%float
  end.
Proof.
  intros Hb Hr. destruct (GNN_Fraud_Probability r) as [x|e] eqn:Hx.
  - now apply gnn_pred_found.
  - apply (gnn_pred_error _ _ e). unfold gnn_pred_try.
    rewrite filter_app, (filter_no_match _ _ Hb), filter_cons.
    destruct (decide (Document_Number r = doc)); [|contradiction].
    destruct before; simpl; now rewrite Hx.
Qed.

Lemma X4_duplicated_key : gnn_pred duplicated "777" = 0.7%float.
Proof.
  refine (X4_first_match_decides
            [ {| Document_Number := "555"; GNN_Fraud_Probability := Ok 0.2%float |} ]
            {| Document_Number := "777"; GNN_Fraud_Probability := Ok 0.7%float |}
            [ {| Document_Number := "777"; GNN_Fraud_Probability := Ok 0.1%float |} ]
            "777" _ eq_refl).
  repeat constructor. simpl. discriminate.
Defined.

(** X5.  [gnn_pred] never makes up a value: it returns 0.50 or the number
    in a row of the table whose key is the document number. *)
Theorem X5_fallback_value_comes_from_the_table (df : DataFrame) (doc : string) :
  gnn_pred df doc = 0.50%float ∨
  ∃ r, r ∈ df ∧ Document_Number r = doc ∧
    GNN_Fraud_Probability r = Ok (gnn_pred df doc).
Proof.
  unfold gnn_pred, gnn_pred_try.
  destruct (empty df); [now left|].
  destruct (filter (λ r, Document_Number r = doc) df) as [|r rest] eqn:Hf; [now left|].
  assert (Hr : r ∈ filter (λ r, Document_Number r = doc) df) by (rewrite Hf; left).
  apply list_elem_of_filter in Hr as [Hkey Hin].
  unfold_result. destruct (GNN_Fraud_Probability r) as [x|e] eqn:Hx; [|now left].
  right. exists r. auto.
Qed.

(** ** The score *)

Lemma scoring_result_risk raw : risk_level (scoring_result raw) = classify raw.
Proof. unfold scoring_result. simpl. apply classify_clamp. Qed.

(** X6.  The clamp does not change the label: the risk level of the result
    is the bucket of the raw value, and the status is Flagged exactly when
    the raw value is not below 0.67 (a NaN is not below it). *)
Theorem X6_label_of_the_raw_value (raw : float) :
  risk_level (scoring_result raw) = classify raw ∧
  (status (scoring_result raw) = Flagged ↔ (raw <? 0.67)%float = false) ∧
  (status (scoring_result raw) = Verified ↔ (raw <? 0.67)%float = true).
Proof.
  split; [apply scoring_result_risk|].
  pose proof (classify_clamp raw) as Hc.
  unfold scoring_result. cbn [status]. fold (clamp raw). rewrite Hc.
  unfold classify.
  destruct (raw <? 0.33)%float eqn:H33.
  - assert ((raw <? 0.67)%float = true) as ->
      by (apply (ltb_leb_trans _ 0.33); [assumption | reflexivity]).
    simpl. split; split; congruence.
  - destruct (raw <? 0.67)%float; simpl; split; split; congruence.
Qed.

(** X7.  Saturation.  A raw value that is not below 1 (1 or more, infinite,
    or NaN) gives the result 100 / High / 0 / Flagged; a raw value below 1
    that is not above 0 gives 0 / Low / 100 / Verified. *)
Theorem X7_saturation (raw : float) :
  ((raw <? 1)%float = false →
   scoring_result raw =
   {| Main.fraud_probability := 100%float; risk_level := High;
      Main.confidence := 0%float; status := Flagged |}) ∧
  ((raw <? 1)%float = true → (0 <? raw)%float = false →
   scoring_result raw =
   {| Main.fraud_probability := 0%float; risk_level := Low;
      Main.confidence := 100%float; status := Verified |}).
Proof.
  unfold scoring_result, clamp, Py.max, Py.min. split.
  - intros ->. reflexivity.
  - intros -> ->. reflexivity.
Qed.

Lemma X7_nan_and_negative :
  scoring_result nan =
    {| Main.fraud_probability := 100%float; risk_level := High;
       Main.confidence := 0%float; status := Flagged |} ∧
  scoring_result (-2.5)%float =
    {| Main.fraud_probability := 0%float; risk_level := Low;
       Main.confidence := 100%float; status := Verified |}.
Proof.
  split.
  - exact (proj1 (X7_saturation nan) eq_refl).
  - exact (proj2 (X7_saturation (-2.5)%float) eq_refl eq_refl).
Defined.

(** ** The source of the score *)



(** X9.  A classifier whose [predict_proba] raises on every input, or is
    missing, behaves as no classifier at all: the result is the one the
    same globals give with [model = None], for every request. *)
Theorem X9_raising_classifier_is_no_classifier m sc fs df name doc address dtype :
  (∀ X, is_ok (call_predict_proba m X) = false) →
  predict_fraud {| Main.model := Some m; Main.scaler := sc;
                   feature_selector := fs; gnn_df := df |} name doc address dtype =
  predict_fraud {| Main.model := None; Main.scaler := sc;
                   feature_selector := fs; gnn_df := df |} name doc address dtype.
Proof.
  intros Hm. rewrite !predict_fraud_blocks.
  destruct (extract_features name doc address dtype) as [X|e]; [|reflexivity].
  unfold_result. unfold raw_probability. simpl.
  specialize (Hm (apply_stage sc (apply_stage fs X))).
  destruct (call_predict_proba m _); [discriminate|reflexivity].
Qed.

Lemma X9_broken_classifier :
  predict_fraud (only_classifier broken duplicated) "John Doe" "777" (Some "123 Main St") "PAN" =
  predict_fraud (no_artifacts duplicated) "John Doe" "777" (Some "123 Main St") "PAN".
Proof.
  apply (X9_raising_classifier_is_no_classifier broken None None duplicated).
  reflexivity.
Defined.

(** X10.  When the classifier answers, the table is not consulted: if its
    matrix has a first row with an entry, the result is the same for every
    fallback table. *)
Theorem X10_classifier_answer_ignores_the_table m sc fs df df' name doc address dtype :
  (∀ X, ∃ row rest, call_predict_proba m X = Ok (row :: rest) ∧ row ≠ []) →
  predict_fraud {| Main.model := Some m; Main.scaler := sc;
                   feature_selector := fs; gnn_df := df |} name doc address dtype =
  predict_fraud {| Main.model := Some m; Main.scaler := sc;
                   feature_selector := fs; gnn_df := df' |} name doc address dtype.
Proof.
  intros Hm. rewrite !predict_fraud_blocks.
  destruct (extract_features name doc address dtype) as [X|e]; [|reflexivity].
  unfold_result. unfold raw_probability. simpl.
  destruct (Hm (apply_stage sc (apply_stage fs X))) as (row & rest & -> & Hrow).
  unfold_result. unfold positive_class, shape1. unfold_result.
  destruct row as [|a [|b [|c row]]]; [contradiction| reflexivity | reflexivity |].
  simpl. unfold getitem_last.
  destruct (last (a :: b :: c :: row)) eqn:Hl; [reflexivity|].
  apply last_None in Hl. discriminate.
Qed.

Lemma X10_table_not_consulted :
  predict_fraud (only_classifier (constant [[0.2; 0.8]%float]) duplicated)
    "John Doe" "777" (Some "123 Main St") "PAN" =
  predict_fraud (only_classifier (constant [[0.2; 0.8]%float]) [])
    "John Doe" "777" (Some "123 Main St") "PAN".
Proof.
  apply (X10_classifier_answer_ignores_the_table (constant [[0.2; 0.8]%float]) None None).
  intros X. exists [0.2; 0.8]%float, []. split; [reflexivity|discriminate].
Defined.

(** ** The audit trail of the endpoint *)




(** X12.  The response of the endpoint reports the address as "Verified"
    exactly when it has more than 10 characters (whatever they are), and as
    "Pending" otherwise; its status, risk level, probability and confidence
    are those of [predict_fraud], and the anomaly score is the formatted
    probability. *)
Theorem X12_response_of_verify
    (format_2f : float → string) (vid ts : string) (g : Main.Globals)
    (name doc addr dtype : string) (d : Disk) :
  ∃ r resp,
    predict_fraud g name doc (Some addr) dtype = Ok r ∧
    fst (verify format_2f vid ts g
           {| Main.name := name; documentNumber := doc;
              address := Some addr; documentType := dtype |} d) = Ok resp ∧
    VerificationResponse.status resp = status r ∧
    VerificationResponse.riskLevel resp = risk_level r ∧
    VerificationResponse.fraudProbability resp = Main.fraud_probability r ∧
    VerificationResponse.confidence resp = Main.confidence r ∧
    Details.anomalyScore (VerificationResponse.details resp) =
      format_2f (Main.fraud_probability r) ∧
    Details.addressVerification (VerificationResponse.details resp) =
      (if (10 <? len addr)%Z then "Verified" else "Pending").
Proof.
  destruct (predict_fraud_some g name doc addr dtype) as (X & _ & Hp).
  unfold verify. simpl. rewrite Hp. do 2 eexists. split; [reflexivity|].
  split; [reflexivity|]. simpl. repeat split.
  case_bool_decide as He; simpl; [|reflexivity].
  subst addr. reflexivity.
Qed.

(** ** [predict.py] *)

Section RunModelPredictionFacts.

Variable round2 : float → float.

(** X13.  With a model that has no [predict_proba], [run_model_prediction]
    reads the first label of [predict]: label 1 gives 80 / High / 20, any
    other label 20 / Low / 80, whatever the request. *)
Theorem X13_label_only_model g m name doc addr dtype pred rest :
  Predict.selector g = None → Predict.scaler g = None →
  Predict.model g = Some m → predict_proba m = None →
  (∀ X, predict m X = Ok (pred :: rest)) →
  Predict.run_model_prediction round2 g name doc (Some addr) dtype =
  Ok (if decide (pred = 1%Z)
      then {| Predict.fraud_probability := 80%float; Predict.fraud_risk := High;
              Predict.confidence := 20%float |}
      else {| Predict.fraud_probability := 20%float; Predict.fraud_risk := Low;
              Predict.confidence := 80%float |}).
Proof.
  intros Hsel Hsc Hm Hpp Hpred. unfold Predict.run_model_prediction.
  destruct (predict_extract_features_some name doc addr dtype) as (X & ->).
  rewrite Hsel, Hsc, Hm, Hpp. unfold_result. rewrite Hpred. simpl.
  case_bool_decide; case_decide; try contradiction; reflexivity.
Qed.

(** X14.  [run_model_prediction] has no [try]: when the selector raises,
    or the selector is absent or succeeds and the scaler raises, the
    exception leaves the function, whether or not a model is loaded. *)
Theorem X14_transform_failure_propagates g name doc addr dtype s e :
  (Predict.selector g = Some s → (∀ X, transform s X = Raise e) →
   Predict.run_model_prediction round2 g name doc (Some addr) dtype = Raise e) ∧
  (Predict.selector g = None → Predict.scaler g = Some s →
   (∀ X, transform s X = Raise e) →
   Predict.run_model_prediction round2 g name doc (Some addr) dtype = Raise e).
Proof.
  unfold Predict.run_model_prediction.
  destruct (predict_extract_features_some name doc addr dtype) as (X & ->).
  split.
  - intros -> Hs. unfold_result. now rewrite Hs.
  - intros -> -> Hs. unfold_result. now rewrite Hs.
Qed.

End RunModelPredictionFacts.

Lemma X13_label_one_and_zero :
  Predict.run_model_prediction (λ x, x) (only_labels 1)
    "Test User" "123456789" (Some "Sample address 123") "AADHAR" =
  Ok {| Predict.fraud_probability := 80%float; Predict.fraud_risk := High;
        Predict.confidence := 20%float |} ∧
  Predict.run_model_prediction (λ x, x) (only_labels 0)
    "Test User" "123456789" (Some "Sample address 123") "AADHAR" =
  Ok {| Predict.fraud_probability := 20%float; Predict.fraud_risk := Low;
        Predict.confidence := 80%float |}.
Proof.
  split.
  - exact (X13_label_only_model (λ x, x) (only_labels 1) (label_only 1) "Test User"
             "123456789" "Sample address 123" "AADHAR" 1%Z [] eq_refl eq_refl eq_refl eq_refl
             (λ _, eq_refl)).
  - exact (X13_label_only_model (λ x, x) (only_labels 0) (label_only 0) "Test User"
             "123456789" "Sample address 123" "AADHAR" 0%Z [] eq_refl eq_refl eq_refl eq_refl
             (λ _, eq_refl)).
Defined.

Lemma X14_failing_selector_aborts :
  Predict.run_model_prediction (λ x, x) behind_failing_selector
    "Test User" "123456789" (Some "Sample address 123") "AADHAR" =
  Raise (ValueError "X has 12 features, but 3 were expected").
Proof.
  exact (proj1 (X14_transform_failure_propagates (λ x, x) behind_failing_selector
                  "Test User" "123456789" "Sample address 123" "AADHAR" failing
                  (ValueError "X has 12 features, but 3 were expected"))
           eq_refl (λ _, eq_refl)).
Defined.

Section RiskBuckets.

#[local] Open Scope float_scope.

(** X15.  [predict.classify_risk], on percentages: values below 33 are Low,
    values from 33 and below 66 Medium, values from 66 High; the label never
    decreases when the value increases, and a NaN is High. *)
Theorem X15_classify_risk_buckets :
  (∀ p, (p <? 33) = true → Predict.classify_risk p = Low) ∧
  (∀ p, (33 <=? p) = true → (p <? 66) = true → Predict.classify_risk p = Medium) ∧
  (∀ p, (66 <=? p) = true → Predict.classify_risk p = High) ∧
  (∀ p q, (p <=? q) = true →
     (rank (Predict.classify_risk p) ≤ rank (Predict.classify_risk q))%nat) ∧
  Predict.classify_risk nan = High.
Proof.
  split; [exact classify_risk_low|]. split; [exact classify_risk_medium|].
  split; [exact classify_risk_high|]. split; [exact classify_risk_monotone|reflexivity].
Qed.

Lemma X15_forty_is_medium : Predict.classify_risk 40 = Medium.
Proof. apply (proj1 (proj2 X15_classify_risk_buckets)); reflexivity. Defined.

(** X16.  [main.classify], on probabilities: values below 0.33 are Low,
    values from 0.33 and below 0.67 Medium, values from 0.67 High, so each
    boundary belongs to the upper bucket; the label never decreases when the
    value increases, and a NaN is High. *)
Theorem X16_classify_buckets :
  (∀ p, (p <? 0.33) = true → classify p = Low) ∧
  (∀ p, (0.33 <=? p) = true → (p <? 0.67) = true → classify p = Medium) ∧
  (∀ p, (0.67 <=? p) = true → classify p = High) ∧
  (∀ p q, (p <=? q) = true → (rank (classify p) ≤ rank (classify q))%nat) ∧
  classify nan = High.
Proof.
  split; [exact classify_low|]. split; [exact classify_medium|].
  split; [exact classify_high|]. split; [exact classify_monotone|reflexivity].
Qed.

Lemma X16_half_is_medium : classify 0.5 = Medium.
Proof. apply (proj1 (proj2 X16_classify_buckets)); reflexivity. Defined.

End RiskBuckets.

(** ** Startup *)

Import Startup.

Lemma startup_facts (f : Files) (g : Main.Globals) :
  (gnn_csv f = None → csv_writable f = false → startup_event f g = (Raise OSError, f)) ∧
  (is_Some (gnn_csv f) ∨ csv_writable f = true →
   ∃ g' f',
     startup_event f g = (Ok g', f') ∧
     Main.model g' = match best_model_pkl f with Ok m => Some m | Raise _ => None end ∧
     Main.scaler g' = match scaler_pkl f with Ok s => Some s | Raise _ => None end ∧
     feature_selector g' =
       match feature_selector_pkl f with Ok s => Some s | Raise _ => None end ∧
     gnn_df g' = match gnn_csv f with Some (Ok df) => df | _ => [] end ∧
     gnn_csv f' = match gnn_csv f with Some c => Some c | None => Some (Ok []) end ∧
     best_model_pkl f' = best_model_pkl f ∧ scaler_pkl f' = scaler_pkl f ∧
     feature_selector_pkl f' = feature_selector_pkl f).
Proof.
  unfold startup_event, ensure_gnn_csv, gnn_csv_exists, load_gnn, load_models,
    ensure_gnn_csv, gnn_csv_exists, read_csv, set_gnn_df.
  destruct f as [bm sp fp csv w]. simpl. split.
  - intros -> ->. reflexivity.
  - intros H. destruct csv as [[df|e]|]; simpl.
    + do 2 eexists. split; [reflexivity|]. simpl. destruct df; repeat split; reflexivity.
    + do 2 eexists. split; [reflexivity|]. simpl. repeat split; reflexivity.
    + destruct H as [[c H]|H]; [discriminate|]. subst w. simpl.
      do 2 eexists. split; [reflexivity|]. simpl. repeat split; reflexivity.
Qed.

(** X17.  [startup_event] fails only when the fallback CSV is missing and
    cannot be created.  Otherwise it returns globals that do not depend on
    the former ones: each artifact is loaded exactly when its own file
    loads, whatever happens to the other two, and the table holds the rows
    of the CSV when it can be read and no row otherwise.  An existing CSV is
    never rewritten; a missing one is created without rows. *)
Theorem X17_startup (f : Files) (g : Main.Globals) :
  (gnn_csv f = None → csv_writable f = false → startup_event f g = (Raise OSError, f)) ∧
  (is_Some (gnn_csv f) ∨ csv_writable f = true →
   ∃ g' f',
     startup_event f g = (Ok g', f') ∧
     Main.model g' = match best_model_pkl f with Ok m => Some m | Raise _ => None end ∧
     Main.scaler g' = match scaler_pkl f with Ok s => Some s | Raise _ => None end ∧
     feature_selector g' =
       match feature_selector_pkl f with Ok s => Some s | Raise _ => None end ∧
     gnn_df g' = match gnn_csv f with Some (Ok df) => df | _ => [] end ∧
     gnn_csv f' = match gnn_csv f with Some c => Some c | None => Some (Ok []) end ∧
     best_model_pkl f' = best_model_pkl f ∧ scaler_pkl f' = scaler_pkl f ∧
     feature_selector_pkl f' = feature_selector_pkl f).
Proof. apply startup_facts. Qed.

Lemma X17_scaler_without_model :
  ∃ g' f', startup_event with_table initial = (Ok g', f') ∧
    Main.model g' = None ∧ Main.scaler g' = Some double ∧ gnn_df g' = duplicated ∧
    gnn_csv f' = Some (Ok duplicated).
Proof.
  destruct (proj2 (X17_startup with_table initial) (or_introl (ex_intro _ _ eq_refl)))
    as (g' & f' & H & Hm & Hs & _ & Hdf & Hcsv & _).
  exists g', f'. repeat split; assumption.
Defined.

(** X18.  Starting again changes nothing: on the files a successful startup
    leaves, with the globals it returned or any others, [startup_event]
    succeeds and returns the same globals and the same files. *)
Theorem X18_restart_is_idempotent (f f1 : Files) (g g1 g2 : Main.Globals) :
  startup_event f g = (Ok g1, f1) →
  startup_event f1 g2 = (Ok g1, f1).
Proof.
  unfold startup_event, ensure_gnn_csv, gnn_csv_exists, load_gnn, load_models,
    ensure_gnn_csv, gnn_csv_exists, read_csv, set_gnn_df.
  destruct f as [bm sp fp csv w]. simpl.
  destruct csv as [[df|e]|]; simpl.
  - intros [= <- <-]. simpl. now destruct df.
  - intros [= <- <-]. reflexivity.
  - destruct w; simpl; [|discriminate]. intros [= <- <-]. reflexivity.
Qed.

Lemma X18_restart_on_a_bare_directory :
  startup_event bare initial =
    (Ok initial, {| best_model_pkl := Raise OSError; scaler_pkl := Raise OSError;
                    feature_selector_pkl := Raise OSError;
                    gnn_csv := Some (Ok []); csv_writable := true |}) ∧
  startup_event {| best_model_pkl := Raise OSError; scaler_pkl := Raise OSError;
                   feature_selector_pkl := Raise OSError;
                   gnn_csv := Some (Ok []); csv_writable := true |}
    (no_artifacts duplicated) =
    (Ok initial, {| best_model_pkl := Raise OSError; scaler_pkl := Raise OSError;
                    feature_selector_pkl := Raise OSError;
                    gnn_csv := Some (Ok []); csv_writable := true |}).
Proof.
  split; [reflexivity|].
  exact (X18_restart_is_idempotent bare _ initial initial (no_artifacts duplicated) eq_refl).
Defined.

(** X19.  A first start.  When the model file does not load and there is no
    fallback CSV yet (and one can be created), the service starts.  If
    taking the truth value of the selector and of the scaler that were
    loaded does not raise, every request that has an address is answered
    with the neutral result 50 / Medium / 50 / Verified, whatever these two
    do; if the truth test of the loaded selector raises, every such request
    ends with that exception. *)
Theorem X19_first_start_is_neutral (f : Files) (g : Main.Globals) e
    (truth_model truth_scaler truth_selector : result bool) :
  best_model_pkl f = Raise e → gnn_csv f = None → csv_writable f = true →
  ∃ g' f', startup_event f g = (Ok g', f') ∧
    ((is_Some (feature_selector g') → is_ok truth_selector = true) →
     (is_Some (Main.scaler g') → is_ok truth_scaler = true) →
     ∀ name doc addr dtype,
       Loaded.predict_fraud (Loaded.loaded truth_model truth_scaler truth_selector g')
         name doc (Some addr) dtype = Ok neutral) ∧
    (∀ err, is_Some (feature_selector g') → truth_selector = Raise err →
     ∀ name doc addr dtype,
       Loaded.predict_fraud (Loaded.loaded truth_model truth_scaler truth_selector g')
         name doc (Some addr) dtype = Raise err).
Proof.
  intros Hm Hcsv Hw.
  destruct (proj2 (startup_facts f g) (or_intror Hw))
    as (g' & f' & H & Hmodel & _ & _ & Hdf & _).
  rewrite Hm in Hmodel. rewrite Hcsv in Hdf.
  exists g', f'. split; [exact H|]. split.
  - intros Hsel Hsc name doc addr dtype.
    assert (Hs : ∃ g2, Loaded.settle (Loaded.loaded truth_model truth_scaler truth_selector g')
                       = Ok g2 ∧ Main.model g2 = None ∧ gnn_df g2 = []).
    { unfold Loaded.settle, Loaded.loaded, Loaded.truth_test, Loaded.with_truth. simpl.
      rewrite Hmodel, Hdf.
      destruct (feature_selector g') as [fs|]; simpl.
      - destruct truth_selector as [[]|]; [| |now specialize (Hsel (ex_intro _ _ eq_refl))];
          (destruct (Main.scaler g') as [sc|]; simpl;
           [destruct truth_scaler as [[]|];
              [| |now specialize (Hsc (ex_intro _ _ eq_refl))]|]);
          unfold_result; eexists; repeat split.
      - destruct (Main.scaler g') as [sc|]; simpl;
          [destruct truth_scaler as [[]|];
             [| |now specialize (Hsc (ex_intro _ _ eq_refl))]|];
          unfold_result; eexists; repeat split. }
    destruct Hs as (g2 & Hs & Hm2 & Hdf2).
    rewrite (loaded_predict_fraud_settled _ g2 _ _ _ _ Hs).
    destruct (predict_fraud_some g2 name doc addr dtype) as (X & _ & ->).
    unfold raw_probability. rewrite Hm2, Hdf2. reflexivity.
  - intros err [fs Hfs] Herr name doc addr dtype.
    apply loaded_predict_fraud_raises.
    unfold Loaded.settle, Loaded.loaded, Loaded.truth_test, Loaded.with_truth. simpl.
    now rewrite Hfs, Herr.
Qed.

Lemma X19_selector_file_only :
  ∃ g' f', startup_event selector_only initial = (Ok g', f') ∧
    ∀ name doc addr dtype,
      Loaded.predict_fraud (Loaded.loaded (Ok true) (Ok true) (Ok true) g')
        name doc (Some addr) dtype = Ok neutral.
Proof.
  destruct (X19_first_start_is_neutral selector_only initial OSError (Ok true) (Ok true)
              (Ok true) eq_refl eq_refl eq_refl) as (g' & f' & H & Hn & _).
  exists g', f'. split; [exact H|]. apply Hn; reflexivity.
Defined.

(** X20.  What [GET /] reports binds the answers: when it shows the model as
    "Not Loaded" and the CSV as "Empty", every request that has an address
    gets the neutral result 50 / Medium / 50 / Verified. *)
Theorem X20_home_not_loaded_and_empty (g : Main.Globals) name doc addr dtype :
  Home.model (home g) = "Not Loaded" → Home.gnn_csv (home g) = "Empty" →
  predict_fraud g name doc (Some addr) dtype = Ok neutral.
Proof.
  unfold home. simpl. intros Hm Hdf.
  destruct (predict_fraud_some g name doc addr dtype) as (X & _ & ->).
  unfold raw_probability.
  destruct (Main.model g); [discriminate|].
  destruct (gnn_df g); [reflexivity|discriminate].
Qed.

Lemma X20_home_after_a_first_start :
  predict_fraud initial "John Doe" "123456789" (Some "123 Main St") "PASSPORT" = Ok neutral.
Proof. apply X20_home_not_loaded_and_empty; reflexivity. Defined.

(** ** The debug endpoint *)










(** ** [load_models.py] *)

Section LoadAllModelsFacts.

Variable obj : Type.
Variable joblib_load : string → result obj.

(** X23.  [load_all_models] never fails and stops at the first file that
    does not load: its dict holds an object under "model", "selector",
    "scaler", "gnn_output" exactly when that file and every file before it
    in this order loaded, the object being the loaded one, and it has no
    other key.  So a missing [best_model.pkl] leaves the dict empty even
    when the other three files are in place. *)
Theorem X23_load_all_models_prefix :
  let models := LoadModels.load_all_models obj joblib_load in
  let loaded file := match joblib_load file with Ok o => Some o | Raise _ => None end in
  models !! "model" = loaded "best_model.pkl" ∧
  models !! "selector" =
    (_ ← loaded "best_model.pkl"; loaded "feature_selector.pkl") ∧
  models !! "scaler" =
    (_ ← loaded "best_model.pkl"; _ ← loaded "feature_selector.pkl"; loaded "scaler.pkl") ∧
  models !! "gnn_output" =
    (_ ← loaded "best_model.pkl"; _ ← loaded "feature_selector.pkl";
     _ ← loaded "scaler.pkl"; loaded "output_of_GNN_model.pkl") ∧
  (∀ key, is_Some (models !! key) → key ∈ ["model"; "selector"; "scaler"; "gnn_output"]) ∧
  (models !! "model" = None → models = ∅).
Proof.
  intros models loaded. subst models loaded. unfold LoadModels.load_all_models.
  destruct (joblib_load "best_model.pkl") as [o1|];
    [destruct (joblib_load "feature_selector.pkl") as [o2|];
     [destruct (joblib_load "scaler.pkl") as [o3|];
      [destruct (joblib_load "output_of_GNN_model.pkl") as [o4|]|]|]|];
    simpl; (split; [reflexivity|]); (split; [reflexivity|]); (split; [reflexivity|]);
    (split; [reflexivity|]);
    (split; [|intros H; first [reflexivity | discriminate H]]);
    intros key [o Hk]; rewrite !elem_of_cons;
    repeat (rewrite lookup_insert in Hk; case_decide; [subst; tauto|]);
    rewrite lookup_empty in Hk; discriminate.
Qed.

End LoadAllModelsFacts.

(** ** The column names of the encoding script *)

Import Encoding.

Lemma char_lower_class c :
  char_isupper (char_lower c) = false ∧ char_isspace (char_lower c) = char_isspace c.
Proof. destruct c as [[] [] [] [] [] [] [] []]; split; reflexivity. Qed.

Lemma sub_go_clean in_run cs :
  Forall (λ c, char_isupper c = false) cs →
  Forall (λ c, char_isspace c = false ∧ char_isupper c = false) (sub_go in_run cs).
Proof.
  intros H. revert in_run. induction H as [|c cs Hc _ IH]; intros in_run; simpl.
  - constructor.
  - destruct (char_isspace c) eqn:Hs.
    + destruct in_run; [apply IH|]. constructor; [split; reflexivity|apply IH].
    + constructor; [split; assumption|apply IH].
Qed.

Lemma lstrip_id cs : Forall (λ c, char_isspace c = false) cs → lstrip cs = cs.
Proof. destruct 1 as [|c cs Hc _]; simpl; [reflexivity|now rewrite Hc]. Qed.

Lemma sub_go_id cs : Forall (λ c, char_isspace c = false) cs → sub_go false cs = cs.
Proof. induction 1 as [|c cs Hc _ IH]; simpl; [reflexivity|]. now rewrite Hc, IH. Qed.

Lemma lower_id cs : Forall (λ c, char_isupper c = false) cs → lower cs = cs.
Proof.
  induction 1 as [|c cs Hc _ IH]; simpl; [reflexivity|].
  unfold char_lower at 1. now rewrite Hc, IH.
Qed.

Lemma clean_column_chars c :
  Forall (λ x, char_isspace x = false ∧ char_isupper x = false) (chars (clean_column c)).
Proof.
  unfold clean_column, chars. rewrite list_ascii_of_string_of_list_ascii.
  apply sub_go_clean. unfold lower. apply Forall_map, Forall_forall. intros x _.
  apply char_lower_class.
Qed.

(** X24.  The cleaned column name holds no whitespace and no upper-case
    letter, and cleaning is idempotent: a cleaned name is left as it is. *)
Theorem X24_clean_column (c : string) :
  Forall (λ x, char_isspace x = false ∧ char_isupper x = false) (chars (clean_column c)) ∧
  clean_column (clean_column c) = clean_column c.
Proof.
  pose proof (clean_column_chars c) as H. split; [exact H|].
  assert (Hs : Forall (λ x, char_isspace x = false) (chars (clean_column c)))
    by (eapply Forall_impl; [exact H|]; simpl; tauto).
  assert (Hu : Forall (λ x, char_isupper x = false) (chars (clean_column c)))
    by (eapply Forall_impl; [exact H|]; simpl; tauto).
  unfold clean_column at 1. unfold strip, sub_whitespace.
  rewrite (lstrip_id _ Hs).
  rewrite lstrip_id by (apply Forall_rev; exact Hs).
  rewrite rev_involutive, (lower_id _ Hu), (sub_go_id _ Hs).
  unfold chars. apply string_of_list_ascii_of_string.
Qed.

Example clean_column_of_a_header : clean_column "  Document  Type " = "document_type".
Proof. reflexivity. Qed.

(** ** The width of the classifier's answer in [predict.py] *)

Section RunModelPredictionWidth.

Variable round2 : float → float.

(** X25.  [run_model_prediction] always reads [predict_proba(X)[0][1]]:
    when the transforms that are loaded succeed and the classifier answers
    one column, it raises [IndexError]; when the first row has at least two
    entries, the reported probability is the rounded second entry times 100
    and the confidence is rounded again from 100 minus it. *)
Theorem X25_second_column_or_index_error g m f name doc addr dtype :
  (∀ s, Predict.selector g = Some s → ∀ X, is_ok (transform s X) = true) →
  (∀ s, Predict.scaler g = Some s → ∀ X, is_ok (transform s X) = true) →
  Predict.model g = Some m → predict_proba m = Some f →
  (∀ a rest, (∀ X, f X = Ok ([a] :: rest)) →
     Predict.run_model_prediction round2 g name doc (Some addr) dtype = Raise IndexError) ∧
  (∀ a b row rest, (∀ X, f X = Ok ((a :: b :: row) :: rest)) →
     Predict.run_model_prediction round2 g name doc (Some addr) dtype =
     Ok {| Predict.fraud_probability := round2 (b * 100)%float;
           Predict.fraud_risk := Predict.classify_risk (round2 (b * 100)%float);
           Predict.confidence := round2 (100 - round2 (b * 100))%float |}).
Proof.
  intros Hsel Hsc Hm Hf. unfold Predict.run_model_prediction.
  destruct (predict_extract_features_some name doc addr dtype) as (X & ->).
  rewrite Hm, Hf. unfold_result.
  assert (H1 : ∃ X1, match Predict.selector g with
                     | Some s => transform s X
                     | None => Ok X
                     end = Ok X1).
  { destruct (Predict.selector g) as [s|]; [|eauto].
    specialize (Hsel s eq_refl X). destruct (transform s X); [eauto|discriminate]. }
  destruct H1 as (X1 & ->).
  assert (H2 : ∃ X2, match Predict.scaler g with
                     | Some s => transform s X1
                     | None => Ok X1
                     end = Ok X2).
  { destruct (Predict.scaler g) as [s|]; [|eauto].
    specialize (Hsc s eq_refl X1). destruct (transform s X1); [eauto|discriminate]. }
  destruct H2 as (X2 & ->).
  split.
  - intros a rest H. now rewrite H.
  - intros a b row rest H. now rewrite H.
Qed.

End RunModelPredictionWidth.

Lemma X25_one_column_raises :
  Predict.run_model_prediction (λ x, x)
    {| Predict.model := Some (constant [[0.9]%float]);
       Predict.scaler := Some double; Predict.selector := Some keep2 |}
    "Test User" "123456789" (Some "Sample address 123") "AADHAR" = Raise IndexError.
Proof.
  refine (proj1 (X25_second_column_or_index_error (λ x, x)
                   {| Predict.model := Some (constant [[0.9]%float]);
                      Predict.scaler := Some double; Predict.selector := Some keep2 |}
                   (constant [[0.9]%float]) (λ _, Ok [[0.9]%float])
                   "Test User" "123456789" "Sample address 123" "AADHAR"
                   _ _ eq_refl eq_refl) 0.9%float [] (λ _, eq_refl)).
  - intros s [= <-] [rows|rows]; reflexivity.
  - intros s [= <-] [rows|rows]; reflexivity.
Defined.
